(** * drf_renderer_xlsx.renderers: a shallow embedding

    The module renders the payload of a REST response into one worksheet.
    This development embeds [get_style_from_dict], [get_attribute] and the
    methods of [XLSXRenderer] ([render], [_check_validatation_data],
    [_flatten], [_json_format_response], [_make_body]) together with the
    Python built-ins they call, and states the properties of the written
    specification against that embedding. *)

From Stdlib Require Import ZArith String Ascii List Lia DecimalString.
From stdpp Require Import gmap strings list.
Import ListNotations.

Local Open Scope string_scope.
Local Open Scope list_scope.

(** ** Python values

    The payload handed to the renderer is JSON-shaped data: [None], booleans,
    integers, strings, lists and (insertion-ordered) mappings with string
    keys.  A mapping is kept as an association list because the order of its
    items decides the order of the columns.  The renderer tells a
    [rest_framework] [ReturnDict] apart from a built-in [dict], so a mapping
    carries its class; [ReturnList] is a subclass of [list] and every
    [isinstance] test on a list in the module accepts both, so lists carry
    no tag. *)

Inductive dict_kind : Type := PlainDict | ReturnDict.

#[warnings="-register-all"]
Inductive value : Type :=
| VNone
| VBool (b : bool)
| VInt (n : Z)
| VStr (s : string)
| VList (xs : list value)
| VDict (kind : dict_kind) (items : list (string * value)).

(** Exceptions raised by the built-ins that the module calls. *)
Inductive exn : Type :=
| TypeError
| AttributeError
| KeyError
| IndexError
| UnboundLocalError.

Inductive res (A : Type) : Type :=
| Ok (a : A)
| Raise (e : exn).
Arguments Ok {A} a.
Arguments Raise {A} e.

Definition res_bind {A B} (m : res A) (k : A -> res B) : res B :=
  match m with
  | Ok a => k a
  | Raise e => Raise e
  end.

Module PyBuiltins.

(** [bool(v)] *)
Definition truthy (v : value) : bool :=
  match v with
  | VNone => false
  | VBool b => b
  | VInt n => negb (n =? 0)%Z
  | VStr s => negb (String.eqb s "")
  | VList xs => match xs with [] => false | _ => true end
  | VDict _ items => match items with [] => false | _ => true end
  end.

(** [isinstance(v, collections.abc.Iterable)] *)
Definition is_iterable (v : value) : bool :=
  match v with
  | VStr _ | VList _ | VDict _ _ => true
  | _ => false
  end.

(** [isinstance(v, collections.abc.MutableMapping)] *)
Definition is_mutable_mapping (v : value) : bool :=
  match v with
  | VDict _ _ => true
  | _ => false
  end.

Definition is_str (v : value) : bool :=
  match v with
  | VStr _ => true
  | _ => false
  end.

(** [sep.join(parts)] *)
Definition join (sep : string) (parts : list string) : string :=
  String.concat sep parts.

(** [str(n)] for an integer. *)
Definition str_of_int (n : Z) : string :=
  NilZero.string_of_int (Z.to_int n).

Definition hex_digit (n : N) : ascii :=
  match n with
  | 0 => "0" | 1 => "1" | 2 => "2" | 3 => "3" | 4 => "4"
  | 5 => "5" | 6 => "6" | 7 => "7" | 8 => "8" | 9 => "9"
  | 10 => "a" | 11 => "b" | 12 => "c" | 13 => "d" | 14 => "e"
  | _ => "f"
  end%N%char.

(** The two lower-case hexadecimal digits of a code point below 256. *)
Definition hex2 (c : ascii) : string :=
  let n := N_of_ascii c in
  String (hex_digit (n / 16)) (String (hex_digit (n mod 16)) "").

(** Characters of a string are code points below 256.
    [repr] of one character inside a literal delimited by [quote]. *)
Definition repr_char (quote c : ascii) : string :=
  let n := N_of_ascii c in
  if (Ascii.eqb c quote || Ascii.eqb c "\")%bool%char then String "\" (String c "")
  else if (n =? 9)%N then "\t"
  else if (n =? 10)%N then "\n"
  else if (n =? 13)%N then "\r"
  else if ((n <? 32) || (n =? 127))%bool%N then "\x" +:+ hex2 c
  else if (n <? 127)%N then String c ""
  else if ((n <=? 160) || (n =? 173))%bool%N then "\x" +:+ hex2 c
  else String c "".

Fixpoint has_char (c : ascii) (s : string) : bool :=
  match s with
  | EmptyString => false
  | String c' s' => (Ascii.eqb c c' || has_char c s')%bool
  end.

Fixpoint flat_chars (f : ascii -> string) (s : string) : string :=
  match s with
  | EmptyString => ""
  | String c s' => f c +:+ flat_chars f s'
  end.

(** The double-quote character (code 34). *)
Definition dquote : ascii := "034"%char.

(** [repr(s)] for a string: single quotes unless the string holds a
    single quote and no double quote. *)
Definition repr_str (s : string) : string :=
  let quote : ascii :=
    if (has_char "'" s && negb (has_char dquote s))%bool%char
    then dquote else "'"%char in
  String quote (flat_chars (repr_char quote) s) +:+ String quote "".

(** [repr(v)]; [ReturnDict.__repr__] is [dict.__repr__]. *)
Fixpoint repr (v : value) : string :=
  match v with
  | VNone => "None"
  | VBool true => "True"
  | VBool false => "False"
  | VInt n => str_of_int n
  | VStr s => repr_str s
  | VList xs => "[" +:+ join ", " (List.map repr xs) +:+ "]"
  | VDict _ items =>
      "{" +:+ join ", "
        (List.map (fun kv => repr_str (fst kv) +:+ ": " +:+ repr (snd kv)) items)
      +:+ "}"
  end.

(** [str(v)] *)
Definition str (v : value) : string :=
  match v with
  | VStr s => s
  | _ => repr v
  end.

(** [len(v)] *)
Definition len (v : value) : res nat :=
  match v with
  | VStr s => Ok (String.length s)
  | VList xs => Ok (List.length xs)
  | VDict _ items => Ok (List.length items)
  | _ => Raise TypeError
  end.

(** [needle in haystack] for two strings. *)
Fixpoint is_substring (needle haystack : string) : bool :=
  (String.prefix needle haystack
   || match haystack with
      | EmptyString => false
      | String _ rest => is_substring needle rest
      end)%bool.

(** [d[key]] on the items of a mapping. *)
Fixpoint dict_lookup (key : string) (items : list (string * value)) : option value :=
  match items with
  | [] => None
  | (k, v) :: rest => if String.eqb key k then Some v else dict_lookup key rest
  end.

Definition dict_keys (items : list (string * value)) : list string :=
  List.map fst items.

Definition has_key (key : string) (items : list (string * value)) : bool :=
  existsb (String.eqb key) (dict_keys items).

(** [key in v], with a string on the left. *)
Definition contains (key : string) (v : value) : res bool :=
  match v with
  | VStr s => Ok (is_substring key s)
  | VList xs =>
      Ok (existsb (fun x => match x with
                            | VStr t => String.eqb key t
                            | _ => false
                            end) xs)
  | VDict _ items => Ok (has_key key items)
  | _ => Raise TypeError
  end.

(** [v[key]], with a string subscript. *)
Definition getitem (v : value) (key : string) : res value :=
  match v with
  | VDict _ items =>
      match dict_lookup key items with
      | Some x => Ok x
      | None => Raise KeyError
      end
  | _ => Raise TypeError
  end.

(** [v.get(key, default)] *)
Definition get (v : value) (key : string) (default : value) : res value :=
  match v with
  | VDict _ items =>
      match dict_lookup key items with
      | Some x => Ok x
      | None => Ok default
      end
  | _ => Raise AttributeError
  end.

(** [v.items()] *)
Definition items_of (v : value) : res (list (string * value)) :=
  match v with
  | VDict _ items => Ok items
  | _ => Raise AttributeError
  end.

(** [d[k] = v] on the items of a mapping: a key already there keeps its
    place and takes the new value, a new key goes to the end. *)
Fixpoint dict_set (d : list (string * value)) (k : string) (v : value)
  : list (string * value) :=
  match d with
  | [] => [(k, v)]
  | (k', v') :: rest =>
      if String.eqb k k' then (k', v) :: rest else (k', v') :: dict_set rest k v
  end.

(** [dict(items)] for a list of pairs. *)
Definition dict_of_items (items : list (string * value)) : list (string * value) :=
  fold_left (fun d kv => dict_set d (fst kv) (snd kv)) items [].

End PyBuiltins.

(** ** The [json] encoder

    [json.dumps] with its default separators and [ensure_ascii].  On the
    values of this model [DjangoJSONEncoder] encodes as the default encoder
    does: it only adds cases for dates, decimals and the like. *)
Module Json.
Import PyBuiltins.

Definition escape_char (c : ascii) : string :=
  let n := N_of_ascii c in
  if Ascii.eqb c dquote then String "\" (String dquote "")
  else if Ascii.eqb c "\"%char then "\\"
  else if (n =? 10)%N then "\n"
  else if (n =? 13)%N then "\r"
  else if (n =? 9)%N then "\t"
  else if (n =? 8)%N then "\b"
  else if (n =? 12)%N then "\f"
  else if ((n <? 32) || (126 <? n))%bool%N then "\u00" +:+ hex2 c
  else String c "".

Definition encode_str (s : string) : string :=
  String dquote (flat_chars escape_char s) +:+ String dquote "".

Fixpoint dumps (v : value) : string :=
  match v with
  | VNone => "null"
  | VBool true => "true"
  | VBool false => "false"
  | VInt n => str_of_int n
  | VStr s => encode_str s
  | VList xs => "[" +:+ join ", " (List.map dumps xs) +:+ "]"
  | VDict _ items =>
      "{" +:+ join ", "
        (List.map (fun kv => encode_str (fst kv) +:+ ": " +:+ dumps (snd kv)) items)
      +:+ "}"
  end.

End Json.

(** ** The small error monad of the renderer

    Statements that can raise are sequenced with [res_bind], written
    [x ← m; k]; the worksheet being written is threaded through the
    stateful part of [render]. *)

#[global] Instance res_mbind : MBind res := fun A B k m => res_bind m k.
#[global] Instance res_mret : MRet res := @Ok.

(** ** openpyxl objects

    The spreadsheet library is a collaborator of the renderer: a style
    object records the keyword arguments it was built from, a cell its
    value, its named style and the fill set on it afterwards, and a
    write-only worksheet the rows appended to it, in order.

    The library's own checks are not part of the embedding: [Font],
    [PatternFill], [Alignment] and [Side] reject unknown keywords and
    ill-typed values, [PatternFill] a colour that is not aRGB hex, a cell a
    value with control characters or one that is a list or a mapping, the
    title setter a title with a slash, and [Image] a path that does not
    exist.  The embedding takes these constructors as total, so it returns
    the renderer's result on every input the library accepts, and may
    return a worksheet where the library would have raised.  What is said
    below of a returned workbook is therefore said under the hypothesis that
    [render] returns one, and what is said of an exception concerns a
    statement that runs before any call into the library. *)

Record NamedStyle : Type := mkNamedStyle {
  style_name : string;
  style_font : option value;
  style_fill : option value;
  style_alignment : option value;
  style_border_side : option value
}.

Record PatternFill : Type := mkPatternFill {
  fill_type : string;
  start_color : value
}.

Record WriteOnlyCell : Type := mkCell {
  cell_value : value;
  cell_style : NamedStyle;
  cell_fill : option PatternFill
}.

Record Worksheet : Type := mkWorksheet {
  ws_title : value;
  ws_images : list (value * string);
  ws_rows : list (list WriteOnlyCell)
}.

(** [wb.create_sheet()] on a fresh write-only workbook. *)
Definition create_sheet : Worksheet :=
  {| ws_title := VStr "Sheet"; ws_images := []; ws_rows := [] |}.

Definition ws_append (row : list WriteOnlyCell) (ws : Worksheet) : Worksheet :=
  {| ws_title := ws_title ws; ws_images := ws_images ws;
     ws_rows := ws_rows ws ++ [row] |}.

Definition ws_add_image (img : value) (anchor : string) (ws : Worksheet) : Worksheet :=
  {| ws_title := ws_title ws; ws_images := ws_images ws ++ [(img, anchor)];
     ws_rows := ws_rows ws |}.

Definition ws_set_title (title : value) (ws : Worksheet) : Worksheet :=
  {| ws_title := title; ws_images := ws_images ws; ws_rows := ws_rows ws |}.

(** ** [get_style_from_dict] *)

(** [Font( **value )] and its siblings: the call unpacks [value] into
    keyword arguments, which raises on anything that is not a mapping; the
    object made records the arguments. *)
Definition keyword_arguments (v : value) : res value :=
  if PyBuiltins.is_mutable_mapping v then Ok v else Raise TypeError.

(** One pass of the loop over [style_dict.items()]. *)
Definition style_set (style : NamedStyle) (key : string) (v : value) : res NamedStyle :=
  if String.eqb key "font" then
    font ← keyword_arguments v;
    Ok (mkNamedStyle (style_name style) (Some font) (style_fill style)
                     (style_alignment style) (style_border_side style))
  else if String.eqb key "fill" then
    fill ← keyword_arguments v;
    Ok (mkNamedStyle (style_name style) (style_font style) (Some fill)
                     (style_alignment style) (style_border_side style))
  else if String.eqb key "alignment" then
    alignment ← keyword_arguments v;
    Ok (mkNamedStyle (style_name style) (style_font style) (style_fill style)
                     (Some alignment) (style_border_side style))
  else if String.eqb key "border_side" then
    side ← keyword_arguments v;
    Ok (mkNamedStyle (style_name style) (style_font style) (style_fill style)
                     (style_alignment style) (Some side))
  else Ok style.

Fixpoint style_loop (items : list (string * value)) (style : NamedStyle)
  : res NamedStyle :=
  match items with
  | [] => Ok style
  | (key, v) :: rest => style' ← style_set style key v; style_loop rest style'
  end.

Definition get_style_from_dict (style_dict : value) (name : string) : res NamedStyle :=
  let style := mkNamedStyle name None None None None in
  if negb (PyBuiltins.truthy style_dict) then Ok style
  else
    items ← PyBuiltins.items_of style_dict;
    style_loop items style.

(** ** [get_attribute]

    The object read by [get_attribute] is the view: its data attributes, and
    its zero-argument accessor methods with the value each call returns.
    [getattr(obj, name, None)] on a data attribute is a lookup that gives
    [None] when the name is missing; a bound method is truthy. *)

Record View : Type := mkView {
  view_attrs : gmap string value;
  view_methods : gmap string value
}.

Definition getattr_data (get_from : View) (name : string) : value :=
  default VNone (view_attrs get_from !! name).

Definition is_none (v : value) : bool :=
  match v with
  | VNone => true
  | _ => false
  end.

Definition get_attribute (get_from : View) (prop_name : string) (default : value) : value :=
  let prop := getattr_data get_from prop_name in
  let prop :=
    if negb (PyBuiltins.truthy prop) then
      match view_methods get_from !! ("get_" +:+ prop_name) with
      | Some result => result
      | None => prop
      end
    else prop in
  if is_none prop then default else prop.

(** ** [XLSXRenderer._flatten] *)

Module Flatten.
Import PyBuiltins.

(** [f"{parent_key}{key_sep}{k}" if parent_key else k] *)
Definition new_key (parent_key key_sep k : string) : string :=
  if truthy (VStr parent_key) then parent_key +:+ key_sep +:+ k else k.

(** The pairs that one pass of the loop body adds to [items] for the
    field [k, v]; [recurse] is the recursive call of [_flatten]. *)
Definition flatten_field
    (recurse : value -> string -> string -> string -> list (string * value))
    (parent_key key_sep list_sep : string) (kv : string * value)
  : list (string * value) :=
  let (k, v) := kv in
  let new_key := new_key parent_key key_sep k in
  if is_mutable_mapping v then
    recurse v new_key key_sep ", "
  else if (is_iterable v && negb (is_str v))%bool then
    match v with
    | VList xs =>
        if (match xs with
            | [] => false
            | first :: _ => is_iterable first
            end)
        then [(new_key, VStr (Json.dumps v))]
        else [(new_key, VStr (join list_sep (List.map str xs)))]
    | _ => [(new_key, v)]
    end
  else [(new_key, v)].

(** The dictionary returned by [_flatten] on a mapping. *)
Fixpoint flatten_mapping (data : value) (parent_key key_sep list_sep : string)
    {struct data} : list (string * value) :=
  match data with
  | VDict _ fields =>
      dict_of_items
        (List.flat_map (flatten_field flatten_mapping parent_key key_sep list_sep) fields)
  | _ => []
  end.

(** [self._flatten(data, parent_key, key_sep, list_sep)]: [data.items()]
    raises on anything that is not a mapping. *)
Definition _flatten (data : value) (parent_key key_sep list_sep : string)
  : res (list (string * value)) :=
  _ ← items_of data;
  Ok (flatten_mapping data parent_key key_sep list_sep).

End Flatten.

Arguments Flatten.flatten_mapping : simpl never.

(** ** [XLSXRenderer] *)

(** What [render] returns: the text of [json.dumps], the empty [bytes()],
    or the bytes [save_virtual_workbook] makes of the workbook, which holds
    the one worksheet written. *)
Inductive Rendered : Type :=
| Text (s : string)
| EmptyBytes
| WorkbookBytes (sheet : Worksheet).

(** The attributes [render] sets on [self]. *)
Record Renderer : Type := mkRenderer {
  ws : Worksheet;
  body : value;
  body_style : NamedStyle
}.

Definition self_append (row : list WriteOnlyCell) (self : Renderer) : Renderer :=
  {| ws := ws_append row (ws self); body := body self; body_style := body_style self |}.

Definition reserved_key : string := "row_color".

Module XLSXRenderer.
Import PyBuiltins.

Definition media_type : string := "application/xlsx".
Definition format : string := "xlsx".

Definition _check_validatation_data (data : value) : res bool :=
  let detail_key := "detail" in
  found ← contains detail_key data;
  if found : bool then Ok false else Ok true.

Definition _json_format_response (response_data : value) : string :=
  Json.dumps response_data.

Definition _flatten := Flatten._flatten.

(** The loop of [_make_body] over [flatten_row.items()]; a
    [PatternFill] object is truthy, so [if fill] tests for [None]. *)
Definition body_cell_step (style : NamedStyle) (fill : option PatternFill)
    (data_row : list WriteOnlyCell) (kv : string * value) : list WriteOnlyCell :=
  let (column_name, v) := kv in
  if String.eqb column_name reserved_key then data_row
  else data_row ++ [mkCell v style fill].

Definition _make_body (row : value) (self : Renderer) : res Renderer :=
  flatten_row ← _flatten row "" "." ", ";
  colored ← contains reserved_key row;
  fill ← (if colored : bool
          then color ← getitem row reserved_key;
               Ok (Some (mkPatternFill "solid" color))
          else Ok None);
  let data_row := fold_left (body_cell_step (body_style self) fill) flatten_row [] in
  Ok (self_append data_row self).

(** [for row in results: self._make_body(row)] *)
Fixpoint make_bodies (rows : list value) (self : Renderer) : res Renderer :=
  match rows with
  | [] => Ok self
  | row :: rest => self' ← _make_body row self; make_bodies rest self'
  end.

(** [v[i]] with an integer subscript inside the bounds checked by the
    caller's [len]. *)
Definition index (v : value) (i : nat) : res value :=
  match v with
  | VList xs =>
      match xs !! i with
      | Some x => Ok x
      | None => Raise IndexError
      end
  | VStr s =>
      match String.get i s with
      | Some c => Ok (VStr (String c ""))
      | None => Raise IndexError
      end
  | VDict _ _ => Raise KeyError
  | _ => Raise TypeError
  end.

(** One pass of the loop over [column_names_first_row.keys()]: the state
    is [column_count] and [column_header_row]. *)
Definition column_header_step (column_titles : value) (style : NamedStyle)
    (st : nat * list WriteOnlyCell) (column_name : string)
  : res (nat * list WriteOnlyCell) :=
  let (column_count, column_header_row) := st in
  if String.eqb column_name reserved_key then Ok (column_count, column_header_row)
  else
    let column_count := S column_count in
    n ← len column_titles;
    column_name_display ←
      (if (n <? column_count)%nat then Ok (VStr column_name)
       else index column_titles (column_count - 1));
    Ok (column_count, column_header_row ++ [mkCell column_name_display style None]).

Fixpoint column_header_loop (column_titles : value) (style : NamedStyle)
    (names : list string) (st : nat * list WriteOnlyCell)
  : res (nat * list WriteOnlyCell) :=
  match names with
  | [] => Ok st
  | column_name :: rest =>
      st' ← column_header_step column_titles style st column_name;
      column_header_loop column_titles style rest st'
  end.

(** [renderer_context["view"]] *)
Definition context_view (renderer_context : option View) : res View :=
  match renderer_context with
  | Some view => Ok view
  | None => Raise TypeError
  end.

Definition empty_dict : value := VDict PlainDict [].

Definition render (data : value) (renderer_context : option View) : res Rendered :=
  valid ← _check_validatation_data data;
  if negb valid then Ok (Text (_json_format_response data))
  else if is_none data then Ok EmptyBytes
  else
    let sheet := create_sheet in
    in_data ← contains "results" data;
    results ← (if in_data : bool then getitem data "results" else Ok data);
    (* Retrieve the configuration parameters from the view *)
    view ← context_view renderer_context;
    let header := get_attribute view "xlsx_header" empty_dict in
    let column_header := get_attribute view "xlsx_column_header" empty_dict in
    let body := get_attribute view "xlsx_body" empty_dict in
    header_style_dict ← get header "style" VNone;
    header_style ← get_style_from_dict header_style_dict "header_style";
    column_header_style_dict ← get column_header "style" VNone;
    column_header_style ←
      get_style_from_dict column_header_style_dict "column_header_style";
    body_style_dict ← get body "style" VNone;
    body_style ← get_style_from_dict body_style_dict "body_style";
    img_addr ← get header "img" VNone;
    let sheet := if truthy img_addr then ws_add_image img_addr "A1" sheet else sheet in
    tab_title ← get header "tab_title" (VStr "Report");
    let sheet := ws_set_title tab_title sheet in
    header_title ← get header "header_title" (VStr "Report");
    let column_count := 0 in
    (* Set the header row *)
    let sheet :=
      if truthy header then ws_append [mkCell header_title header_style None] sheet
      else sheet in
    (* Make column headers *)
    column_titles ← get column_header "titles" (VList []);
    n ← len results;
    sheet ←
      (if (0 <? n)%nat then
         column_names_first_row ←
           match results with
           | VDict _ fields => Ok fields
           | VList _ => first ← index results 0; _flatten first "" "." ", "
           | _ => Raise UnboundLocalError
           end;
         st ← column_header_loop column_titles column_header_style
                (dict_keys column_names_first_row) (column_count, []);
         Ok (ws_append (snd st) sheet)
       else Ok sheet);
    (* Make body *)
    let self := mkRenderer sheet body body_style in
    self ←
      match results with
      | VDict ReturnDict _ => _make_body results self
      | VList rows => make_bodies rows self
      | _ => Ok self
      end;
    Ok (WorkbookBytes (ws self)).

End XLSXRenderer.

(** ** Closed forms of the loops

    The functions below say in one expression what the loops of [render]
    and [_make_body] compute; the lemmas after them prove that they do. *)

(** A key that gets a column: any key but [row_color]. *)
Definition is_shown (column_name : string) : bool :=
  negb (String.eqb column_name reserved_key).

Definition shown_names (names : list string) : list string :=
  List.filter is_shown names.

Definition shown_items (items : list (string * value)) : list (string * value) :=
  List.filter (fun kv => is_shown (fst kv)) items.

(** The fill that [_make_body] builds from the record's own [row_color]. *)
Definition row_fill (fields : list (string * value)) : option PatternFill :=
  match PyBuiltins.dict_lookup reserved_key fields with
  | Some color => Some (mkPatternFill "solid" color)
  | None => None
  end.

(** The row that [_make_body] appends for a record. *)
Definition body_row (style : NamedStyle) (record : value) : list WriteOnlyCell :=
  match record with
  | VDict _ fields =>
      List.map (fun kv => mkCell (snd kv) style (row_fill fields))
               (shown_items (Flatten.flatten_mapping record "" "." ", "))
  | _ => []
  end.

(** The display name of the column at position [i] (counted from 0 among
    the shown columns) under the override titles [titles]. *)
Definition display_name (titles : list value) (i : nat) (column_name : string) : value :=
  match titles !! i with
  | Some title => title
  | None => VStr column_name
  end.

(** The cells of the column-header row for a list of override titles. *)
Definition header_cells (titles : list value) (style : NamedStyle) (start : nat)
    (names : list string) : list WriteOnlyCell :=
  imap (fun i name => mkCell (display_name titles (start + i) name) style None)
       (shown_names names).

(** The records for which [render] makes a body row. *)
Definition body_records (results : value) : list value :=
  match results with
  | VDict ReturnDict _ => [results]
  | VList rows => rows
  | _ => []
  end.

(** [data["results"] if "results" in data else data] *)
Definition results_of (data : value) : res value :=
  in_data ← PyBuiltins.contains "results" data;
  if in_data : bool then PyBuiltins.getitem data "results" else Ok data.

(** [column_names_first_row.keys()] *)
Definition first_row_names (results : value) : res (list string) :=
  match results with
  | VDict _ fields => Ok (PyBuiltins.dict_keys fields)
  | VList _ =>
      first ← XLSXRenderer.index results 0;
      flat ← XLSXRenderer._flatten first "" "." ", ";
      Ok (PyBuiltins.dict_keys flat)
  | _ => Raise UnboundLocalError
  end.

(** ** Derived notions and sample inputs used in the statements *)

(** A header cell made for the column [name]: it shows the name or one of
    the override titles. *)
Definition header_cell_for (titles : value) (style : NamedStyle)
    (name : string) (cell : WriteOnlyCell) : Prop :=
  cell_style cell = style /\ cell_fill cell = None
  /\ (cell_value cell = VStr name
      \/ exists i, XLSXRenderer.index titles i = Ok (cell_value cell)).

(** The row appended by the header section of [render]: one cell with the
    header title when the header configuration is truthy. *)
Definition banner_rows (header header_title : value) (style : NamedStyle)
  : list (list WriteOnlyCell) :=
  if PyBuiltins.truthy header then [[mkCell header_title style None]] else [].

(** A view without any [xlsx_*] configuration. *)
Definition no_view : View := mkView ∅ ∅.

(** The values shown in the rows of a worksheet. *)
Definition row_values (sheet : Worksheet) : list (list value) :=
  List.map (List.map cell_value) (ws_rows sheet).

(** The values shown by a rendered workbook, row by row. *)
Definition rendered_values (r : res Rendered) : option (list (list value)) :=
  match r with
  | Ok (WorkbookBytes sheet) => Some (row_values sheet)
  | _ => None
  end.

(** A record with a nested mapping: [{a: {b: 1, c: 2}}]. *)
Definition nested_record : list (string * value) :=
  [("a", VDict PlainDict [("b", VInt 1); ("c", VInt 2)])].

(** [self._flatten(record)] with its default arguments, on a mapping. *)
Definition flat (record : value) : list (string * value) :=
  Flatten.flatten_mapping record "" "." ", ".

(** Three records of different shapes:
    [[{a: 1}, {a: 2, b: 3}, {c: 4}]]. *)
Definition uneven_results : value :=
  VList [VDict PlainDict [("a", VInt 1)];
         VDict PlainDict [("a", VInt 2); ("b", VInt 3)];
         VDict PlainDict [("c", VInt 4)]].

(** The worksheet rendered for [uneven_results]. *)
Definition uneven_sheet : Worksheet :=
  Eval vm_compute in
    match XLSXRenderer.render uneven_results (Some no_view) with
    | Ok (WorkbookBytes sheet) => sheet
    | _ => create_sheet
    end.

(** A paginated payload whose one record carries [row_color]. *)
Definition colored_data : value :=
  VDict PlainDict
    [("results",
      VList [VDict ReturnDict
               [("id", VInt 1); ("row_color", VStr "FFFF0000"); ("name", VStr "x")]])].

(** A view whose column-header configuration overrides the first title. *)
Definition titled_view : View :=
  mkView {["xlsx_column_header" := VDict PlainDict [("titles", VList [VStr "A"])]]} ∅.

(** The worksheet rendered for [colored_data] under [titled_view]. *)
Definition colored_sheet : Worksheet :=
  Eval vm_compute in
    match XLSXRenderer.render colored_data (Some titled_view) with
    | Ok (WorkbookBytes sheet) => sheet
    | _ => create_sheet
    end.

(** The reading of the claim: the first element is a sequence when it is a
    list; a mapping is not a sequence. *)
Definition claimed_is_sequence (v : value) : bool :=
  match v with
  | VList _ => true
  | _ => false
  end.

(** The value the claim gives to a sequence field under that reading. *)
Definition claimed_sequence_entry (list_sep : string) (xs : list value) : value :=
  match xs with
  | first :: _ =>
      if claimed_is_sequence first then VStr (Json.dumps (VList xs))
      else VStr (PyBuiltins.join list_sep (List.map PyBuiltins.str xs))
  | [] => VStr (PyBuiltins.join list_sep (List.map PyBuiltins.str xs))
  end.

(** The list [[{a: 1}]]. *)
Definition list_of_mappings : list value := [VDict PlainDict [("a", VInt 1)]].

(** One record with the columns [id] and [name]. *)
Definition two_column_results : value :=
  VList [VDict PlainDict [("id", VInt 1); ("name", VStr "x")]].

(** A view whose [xlsx_header] is the empty mapping, with no accessor. *)
Definition view_with_empty_header : View :=
  mkView {["xlsx_header" := VDict PlainDict []]} ∅.

(** A view whose [xlsx_body] is [0] and whose [get_xlsx_body()] returns a
    configuration. *)
Definition view_with_accessor : View :=
  mkView {["xlsx_body" := VInt 0]}
         {["get_xlsx_body" := VDict PlainDict [("style", VDict PlainDict [])]]}.

(** The record [{a: {}, b: 1}]. *)
Definition record_with_empty_mapping : list (string * value) :=
  [("a", VDict PlainDict []); ("b", VInt 1)].

(** The named style whose parts are the entries of a style mapping. *)
Definition style_of_items (name : string) (items : list (string * value)) : NamedStyle :=
  mkNamedStyle name
    (PyBuiltins.dict_lookup "font" items)
    (PyBuiltins.dict_lookup "fill" items)
    (PyBuiltins.dict_lookup "alignment" items)
    (PyBuiltins.dict_lookup "border_side" items).

(** A style mapping with a bold font, a thin border and a key that
    [get_style_from_dict] does not know. *)
Definition sample_style_items : list (string * value) :=
  [("font", VDict PlainDict [("bold", VBool true)]);
   ("number_format", VStr "0.00");
   ("border_side", VDict PlainDict [("border_style", VStr "thin")])].

(** A view whose truthy [xlsx_body] attribute stands beside an accessor. *)
Definition view_with_both : View :=
  mkView {["xlsx_body" := VDict PlainDict [("style", VNone)]]}
         {["get_xlsx_body" := VInt 5]}.

(** A view that has only the accessor [get_xlsx_header]. *)
Definition view_with_accessor_only : View :=
  mkView ∅ {["get_xlsx_header" := VDict PlainDict [("tab_title", VStr "Sales")]]}.

(** A value that is neither a mapping nor a list. *)
Definition is_scalar (v : value) : bool :=
  match v with
  | VList _ | VDict _ _ => false
  | _ => true
  end.

(** Whether a key starts with the parent key followed by the separator. *)
Definition under_parent (parent_key key_sep key : string) : Prop :=
  exists rest, key = parent_key +:+ key_sep +:+ rest.

(** A record with nested mappings and lists:
    [{id: 7, owner: {name: "ann", tags: [1, 2]}, sizes: [3, 4]}]. *)
Definition deep_record : value :=
  VDict ReturnDict
    [("id", VInt 7);
     ("owner", VDict PlainDict [("name", VStr "ann"); ("tags", VList [VInt 1; VInt 2])]);
     ("sizes", VList [VInt 3; VInt 4])].

(** A record of scalars only: [{id: 7, name: "ann", active: True}]. *)
Definition scalar_fields : list (string * value) :=
  [("id", VInt 7); ("name", VStr "ann"); ("active", VBool true)].

(** A record without a list at its top level: [{id: 7, owner: {tags: [1, 2]}}]. *)
Definition listless_fields : list (string * value) :=
  [("id", VInt 7); ("owner", VDict PlainDict [("tags", VList [VInt 1; VInt 2])])].

(** The configuration that [render] reads from the view, in the order of
    its statements: the three sections, the three styles, the image, the
    two titles and the column titles. *)
Record Config : Type := mkConfig {
  cfg_header : value;
  cfg_header_style : NamedStyle;
  cfg_column_header_style : NamedStyle;
  cfg_body : value;
  cfg_body_style : NamedStyle;
  cfg_img_addr : value;
  cfg_tab_title : value;
  cfg_header_title : value;
  cfg_column_titles : value
}.

Definition resolve_config (view : View) : res Config :=
  let header := get_attribute view "xlsx_header" XLSXRenderer.empty_dict in
  let column_header := get_attribute view "xlsx_column_header" XLSXRenderer.empty_dict in
  let body := get_attribute view "xlsx_body" XLSXRenderer.empty_dict in
  header_style_dict ← PyBuiltins.get header "style" VNone;
  header_style ← get_style_from_dict header_style_dict "header_style";
  column_header_style_dict ← PyBuiltins.get column_header "style" VNone;
  column_header_style ← get_style_from_dict column_header_style_dict "column_header_style";
  body_style_dict ← PyBuiltins.get body "style" VNone;
  body_style ← get_style_from_dict body_style_dict "body_style";
  img_addr ← PyBuiltins.get header "img" VNone;
  tab_title ← PyBuiltins.get header "tab_title" (VStr "Report");
  header_title ← PyBuiltins.get header "header_title" (VStr "Report");
  column_titles ← PyBuiltins.get column_header "titles" (VList []);
  Ok (mkConfig header header_style column_header_style body body_style
        img_addr tab_title header_title column_titles).

(** The worksheet before the column headers: title, image and banner row. *)
Definition sheet_with_rows (cfg : Config) (rows : list (list WriteOnlyCell)) : Worksheet :=
  {| ws_title := cfg_tab_title cfg;
     ws_images := if PyBuiltins.truthy (cfg_img_addr cfg)
                  then [(cfg_img_addr cfg, "A1")] else [];
     ws_rows := banner_rows (cfg_header cfg) (cfg_header_title cfg) (cfg_header_style cfg)
                ++ rows |}.

(** A view with a header section, a title override and a body style. *)
Definition styled_view : View :=
  mkView
    {["xlsx_header" := VDict PlainDict [("tab_title", VStr "Sales"); ("img", VStr "logo.png")]]}
    (<["get_xlsx_column_header" := VDict PlainDict [("titles", VList [VStr "No."])]]>
       {["get_xlsx_body" := VDict PlainDict [("style", VDict PlainDict sample_style_items)]]}).

(** The configuration resolved from [styled_view]. *)
Definition styled_config : Config :=
  Eval vm_compute in
    match resolve_config styled_view with
    | Ok cfg => cfg
    | Raise _ =>
        mkConfig VNone (mkNamedStyle "" None None None None)
          (mkNamedStyle "" None None None None) VNone
          (mkNamedStyle "" None None None None) VNone VNone VNone VNone
    end.

(** Two records, the first with a nested mapping. *)
Definition two_records : list value :=
  [deep_record; VDict PlainDict [("id", VInt 8); ("row_color", VStr "FFFF0000")]].

(** The statements of [render] after the configuration is read and the
    banner row written: the column headers and the body, on the worksheet
    [sheet] written so far. *)
Definition write_sheet (column_titles : value)
    (column_header_style body_style : NamedStyle) (body : value)
    (sheet : Worksheet) (results : value) : res Rendered :=
  n ← PyBuiltins.len results;
  sheet ←
    (if (0 <? n)%nat then
       column_names_first_row ←
         match results with
         | VDict _ fields => Ok fields
         | VList _ =>
             first ← XLSXRenderer.index results 0;
             XLSXRenderer._flatten first "" "." ", "
         | _ => Raise UnboundLocalError
         end;
       st ← XLSXRenderer.column_header_loop column_titles column_header_style
              (PyBuiltins.dict_keys column_names_first_row) (0, []);
       Ok (ws_append (snd st) sheet)
     else Ok sheet);
  let self := mkRenderer sheet body body_style in
  self ←
    match results with
    | VDict ReturnDict _ => XLSXRenderer._make_body results self
    | VList rows => XLSXRenderer.make_bodies rows self
    | _ => Ok self
    end;
  Ok (WorkbookBytes (ws self)).


(** A view whose header section is a string instead of a mapping. *)
Definition view_with_bad_header : View :=
  mkView {["xlsx_header" := VStr "Report"]} ∅.

(** A view that only overrides the column titles. *)
Definition view_without_header : View :=
  mkView ∅ {["get_xlsx_column_header" := VDict PlainDict [("titles", VList [VStr "No."])]]}.

(** The configuration resolved from [view_without_header]. *)
Definition headerless_config : Config :=
  Eval vm_compute in
    match resolve_config view_without_header with
    | Ok cfg => cfg
    | Raise _ => styled_config
    end.

(** The header cell made for the shown column [name] that stands at the
    0-based position [pos] among the shown columns: under the column titles
    [titles] it shows [titles[pos]] when the titles reach that far, and the
    name itself otherwise; the name is never the reserved key. *)
Definition header_cell_at (titles : value) (style : NamedStyle) (pos : nat)
    (name : string) (cell : WriteOnlyCell) : Prop :=
  name <> reserved_key
  /\ cell_style cell = style
  /\ cell_fill cell = None
  /\ exists n, PyBuiltins.len titles = Ok n
       /\ if (pos <? n)%nat then XLSXRenderer.index titles pos = Ok (cell_value cell)
          else cell_value cell = VStr name.

(** The body cell made for the entry [kv] of the flattened row of a record
    with the fields [fields]. *)
Definition body_cell_of (style : NamedStyle) (fields : list (string * value))
    (kv : string * value) (cell : WriteOnlyCell) : Prop :=
  fst kv <> reserved_key
  /\ cell_value cell = snd kv
  /\ cell_style cell = style
  /\ cell_fill cell
     = match PyBuiltins.dict_lookup reserved_key fields with
       | Some color => Some (mkPatternFill "solid" color)
       | None => None
       end.

(** Whether a list starts with a string. *)
Definition starts_with_str (xs : list value) : bool :=
  match xs with
  | first :: _ => PyBuiltins.is_str first
  | [] => false
  end.

(** A list or a mapping. *)
Definition is_sequence_or_mapping (v : value) : bool :=
  match v with
  | VList _ | VDict _ _ => true
  | _ => false
  end.

(** The entry of a list field: the JSON text of the list when its first
    element is a list or a mapping, the joined [str] of its elements
    otherwise. *)
Definition sequence_entry (list_sep : string) (xs : list value) : value :=
  match xs with
  | first :: _ =>
      if is_sequence_or_mapping first then VStr (Json.dumps (VList xs))
      else VStr (PyBuiltins.join list_sep (List.map PyBuiltins.str xs))
  | [] => VStr ""
  end.

(** The entries of a row stored under a key. *)
Definition entries_under (key : string) (row : list (string * value))
  : list (string * value) :=
  List.filter (fun kv => String.eqb (fst kv) key) row.

(** The fields before and after the list field [tags] of the record
    [{id: 7, tags: [None, 2], owner: {tags: [[1], [2]]}}]. *)
Definition tagged_fields_before : list (string * value) := [("id", VInt 7)].

Definition tagged_fields_after : list (string * value) :=
  [("owner", VDict PlainDict [("tags", VList [VList [VInt 1]; VList [VInt 2]])])].

(** The keys of the style mapping that [get_style_from_dict] reads. *)
Definition style_keys : list string := ["font"; "fill"; "alignment"; "border_side"].

(** A view with a header section without image, a title override and a
    body style. *)
Definition plain_view : View :=
  mkView
    {["xlsx_header" := VDict PlainDict [("tab_title", VStr "Sales")]]}
    (<["get_xlsx_column_header" := VDict PlainDict [("titles", VList [VStr "No."])]]>
       {["get_xlsx_body" := VDict PlainDict [("style", VDict PlainDict sample_style_items)]]}).

(** The configuration resolved from [plain_view]. *)
Definition plain_config : Config :=
  Eval vm_compute in
    match resolve_config plain_view with
    | Ok cfg => cfg
    | Raise _ => styled_config
    end.

(** The worksheet rendered for [two_records] under [plain_view]. *)
Definition plain_list_sheet : Worksheet :=
  Eval vm_compute in
    match XLSXRenderer.render (VList two_records) (Some plain_view) with
    | Ok (WorkbookBytes sheet) => sheet
    | _ => create_sheet
    end.

(** The worksheet rendered for the singular record [scalar_fields] under
    [plain_view]. *)
Definition plain_singular_sheet : Worksheet :=
  Eval vm_compute in
    match XLSXRenderer.render (VDict ReturnDict scalar_fields) (Some plain_view) with
    | Ok (WorkbookBytes sheet) => sheet
    | _ => create_sheet
    end.

(** The worksheet rendered for [two_records] under [view_without_header]. *)
Definition headerless_sheet : Worksheet :=
  Eval vm_compute in
    match XLSXRenderer.render (VList two_records) (Some view_without_header) with
    | Ok (WorkbookBytes sheet) => sheet
    | _ => create_sheet
    end.

(** The style made from [sample_style_items] under the name [body_style]. *)
Definition sample_style : NamedStyle :=
  mkNamedStyle "body_style"
    (Some (VDict PlainDict [("bold", VBool true)])) None None
    (Some (VDict PlainDict [("border_style", VStr "thin")])).

(** ** Lemmas on the monad and the built-ins *)

Lemma bind_Ok_inv {A B} (m : res A) (k : A -> res B) (b : B) :
  m ≫= k = Ok b -> exists a, m = Ok a /\ k a = Ok b.
Proof.
  destruct m as [a|e]; simpl; intros H.
  - exists a. split; [reflexivity|exact H].
  - discriminate H.
Qed.

(** [inv_bind H as x Hx] splits [H : (x ← m; k) = Ok b] into
    [Hx : m = Ok x] and [H : k x = Ok b]. *)
Tactic Notation "inv_bind" hyp(H) "as" ident(x) ident(Hx) :=
  apply bind_Ok_inv in H; destruct H as (x & Hx & H).

Lemma has_key_lookup (key : string) (items : list (string * value)) :
  PyBuiltins.has_key key items = true <->
  exists v, PyBuiltins.dict_lookup key items = Some v.
Proof.
  unfold PyBuiltins.has_key, PyBuiltins.dict_keys.
  induction items as [|[k v] items IH]; simpl.
  - split; [discriminate|intros [v H]; discriminate].
  - destruct (String.eqb key k).
    + split; [eauto|reflexivity].
    + simpl. exact IH.
Qed.

Lemma has_key_false_lookup (key : string) (items : list (string * value)) :
  PyBuiltins.has_key key items = false ->
  PyBuiltins.dict_lookup key items = None.
Proof.
  intros H. destruct (PyBuiltins.dict_lookup key items) as [v|] eqn:E; [|reflexivity].
  assert (PyBuiltins.has_key key items = true) as H' by (apply has_key_lookup; eauto).
  congruence.
Qed.

(** ** The loop of [_make_body] *)

Lemma body_cell_fold style fill (items : list (string * value)) (acc : list WriteOnlyCell) :
  fold_left (XLSXRenderer.body_cell_step style fill) items acc
  = acc ++ List.map (fun kv => mkCell (snd kv) style fill) (shown_items items).
Proof.
  revert acc. induction items as [|[k v] items IH]; intros acc; simpl.
  - by rewrite app_nil_r.
  - rewrite IH. unfold is_shown. simpl.
    destruct (String.eqb k reserved_key); simpl; [done|].
    by rewrite <- app_assoc.
Qed.

Lemma make_body_dict kd fields (self : Renderer) :
  XLSXRenderer._make_body (VDict kd fields) self
  = Ok (self_append (body_row (body_style self) (VDict kd fields)) self).
Proof.
  unfold XLSXRenderer._make_body, XLSXRenderer._flatten, Flatten._flatten.
  cbn [PyBuiltins.items_of PyBuiltins.contains mbind res_mbind res_bind].
  unfold body_row, row_fill.
  destruct (PyBuiltins.has_key reserved_key fields) eqn:E.
  - apply has_key_lookup in E as [color E].
    cbn [PyBuiltins.getitem mbind res_mbind res_bind]. rewrite E.
    cbn [mbind res_mbind res_bind]. by rewrite body_cell_fold.
  - apply has_key_false_lookup in E. rewrite E.
    cbn [mbind res_mbind res_bind]. by rewrite body_cell_fold.
Qed.

Lemma make_body_inv row (self self' : Renderer) :
  XLSXRenderer._make_body row self = Ok self' ->
  PyBuiltins.is_mutable_mapping row = true
  /\ self' = self_append (body_row (body_style self) row) self.
Proof.
  destruct row as [| | | | |kd fields]; try discriminate.
  rewrite make_body_dict. intros [= <-]. done.
Qed.

Lemma make_bodies_inv rows (self self' : Renderer) :
  XLSXRenderer.make_bodies rows self = Ok self' ->
  Forall (fun r => PyBuiltins.is_mutable_mapping r = true) rows
  /\ body_style self' = body_style self
  /\ ws_rows (ws self') = ws_rows (ws self) ++ List.map (body_row (body_style self)) rows.
Proof.
  revert self. induction rows as [|row rows IH]; intros self; simpl.
  - intros [= <-]. by rewrite app_nil_r.
  - intros H. inv_bind H as self1 Hself1.
    apply make_body_inv in Hself1 as [Hrow ->].
    apply IH in H as (Hall & Hstyle & Hrows).
    split; [by constructor|]. split; [done|].
    rewrite Hrows. simpl. by rewrite <- app_assoc.
Qed.

Lemma make_bodies_dicts rows (self : Renderer) :
  Forall (fun r => PyBuiltins.is_mutable_mapping r = true) rows ->
  exists self', XLSXRenderer.make_bodies rows self = Ok self'.
Proof.
  intros Hall. revert self. induction Hall as [|row rows Hrow _ IH]; intros self; simpl.
  - eauto.
  - destruct row as [| | | | |kd fields]; try discriminate.
    rewrite make_body_dict. simpl. apply IH.
Qed.

(** ** The loop over the column names *)

Lemma header_cells_cons titles style start name names :
  header_cells titles style start (name :: names)
  = if is_shown name
    then mkCell (display_name titles start name) style None
         :: header_cells titles style (S start) names
    else header_cells titles style start names.
Proof.
  unfold header_cells, shown_names. simpl.
  destruct (is_shown name); [|done].
  simpl. rewrite Nat.add_0_r. f_equal.
  apply imap_ext. intros i x _. simpl. by rewrite Nat.add_succ_r.
Qed.

Lemma column_header_loop_list titles style names count (row : list WriteOnlyCell) :
  XLSXRenderer.column_header_loop (VList titles) style names (count, row)
  = Ok (count + length (shown_names names),
        row ++ header_cells titles style count names).
Proof.
  revert count row. induction names as [|name names IH]; intros count row.
  - simpl. by rewrite Nat.add_0_r, app_nil_r.
  - rewrite header_cells_cons. simpl. unfold is_shown.
    destruct (String.eqb name reserved_key) eqn:E; simpl.
    + apply IH.
    + unfold display_name.
      destruct (Nat.ltb_spec (length titles) (S count)) as [Hlt|Hge].
      * rewrite (proj2 (lookup_ge_None titles count)) by lia.
        simpl. rewrite IH. rewrite <- app_assoc. simpl.
        do 2 f_equal. lia.
      * rewrite Nat.sub_0_r.
        destruct (lookup_lt_is_Some_2 titles count) as [title Htitle]; [lia|].
        rewrite Htitle. simpl. rewrite IH. rewrite <- app_assoc. simpl.
        do 2 f_equal. lia.
Qed.

Lemma column_header_loop_inv titles style names count row count' row' :
  XLSXRenderer.column_header_loop titles style names (count, row) = Ok (count', row') ->
  count' = count + length (shown_names names)
  /\ exists cells, row' = row ++ cells
     /\ Forall2 (header_cell_for titles style) (shown_names names) cells.
Proof.
  revert count row. induction names as [|name names IH]; intros count row; simpl.
  - intros [= <- <-]. split; [lia|]. exists []. by rewrite app_nil_r.
  - unfold is_shown. destruct (String.eqb name reserved_key) eqn:E; simpl.
    + apply IH.
    + intros H. inv_bind H as st Hst. inv_bind Hst as n Hn.
      inv_bind Hst as shown Hshown. injection Hst as <-.
      apply IH in H as (-> & cells & -> & Hcells).
      split; [lia|].
      exists (mkCell shown style None :: cells). split; [by rewrite <- app_assoc|].
      constructor; [|done]. repeat split; simpl.
      revert Hshown. destruct (n <? S count)%nat; intros Hshown.
      * left. by injection Hshown.
      * right. eauto.
Qed.

(** ** The rows written by [render] *)

Lemma render_workbook_inv data renderer_context sheet :
  XLSXRenderer.render data renderer_context = Ok (WorkbookBytes sheet) ->
  exists view results header_title header_style column_titles column_header_style
         body_style header_rows,
    renderer_context = Some view
    /\ results_of data = Ok results
    /\ PyBuiltins.get (get_attribute view "xlsx_column_header" XLSXRenderer.empty_dict)
         "titles" (VList []) = Ok column_titles
    /\ ((PyBuiltins.len results = Ok 0 /\ header_rows = [])
        \/ (exists names count cells,
              first_row_names results = Ok names
              /\ XLSXRenderer.column_header_loop column_titles column_header_style
                   names (0, []) = Ok (count, cells)
              /\ header_rows = [cells]))
    /\ Forall (fun r => PyBuiltins.is_mutable_mapping r = true) (body_records results)
    /\ ws_rows sheet
       = banner_rows (get_attribute view "xlsx_header" XLSXRenderer.empty_dict)
           header_title header_style
         ++ header_rows ++ List.map (body_row body_style) (body_records results).
Proof.
  unfold XLSXRenderer.render. intros H.
  inv_bind H as valid Hvalid. destruct valid; simpl in H; [|discriminate].
  destruct (is_none data); [discriminate|]. cbv zeta in H.
  inv_bind H as in_data Hin. inv_bind H as results Hresults.
  inv_bind H as view Hview.
  destruct renderer_context as [view'|]; [|discriminate]. injection Hview as ->.
  set (header := get_attribute view "xlsx_header" XLSXRenderer.empty_dict) in *.
  set (column_header := get_attribute view "xlsx_column_header" XLSXRenderer.empty_dict) in *.
  set (body := get_attribute view "xlsx_body" XLSXRenderer.empty_dict) in *.
  inv_bind H as hsd Hhsd. inv_bind H as header_style Hhs.
  inv_bind H as chsd Hchsd. inv_bind H as column_header_style Hchs.
  inv_bind H as bsd Hbsd. inv_bind H as body_style Hbs.
  inv_bind H as img_addr Himg. inv_bind H as tab_title Htab.
  inv_bind H as header_title Htitle. inv_bind H as column_titles Htitles.
  inv_bind H as n Hn. inv_bind H as sheet1 Hsheet1. inv_bind H as self Hself.
  injection H as <-.
  match type of Hsheet1 with
  | context [ws_append [?c] ?s] => set (sheet0 := if PyBuiltins.truthy header
                                                 then ws_append [c] s else s) in *
  end.
  assert (ws_rows sheet0 = banner_rows header header_title header_style) as Hbanner.
  { unfold sheet0, banner_rows.
    destruct (PyBuiltins.truthy header), (PyBuiltins.truthy img_addr); reflexivity. }
  clearbody sheet0.
  assert (exists header_rows,
             ((PyBuiltins.len results = Ok 0 /\ header_rows = [])
              \/ (exists names count cells,
                    first_row_names results = Ok names
                    /\ XLSXRenderer.column_header_loop column_titles
                         column_header_style names (0, []) = Ok (count, cells)
                    /\ header_rows = [cells]))
             /\ ws_rows sheet1
                = banner_rows header header_title header_style ++ header_rows)
    as (header_rows & Hheader & Hrows).
  { destruct (Nat.ltb_spec 0 n) as [Hpos|Hzero].
    - inv_bind Hsheet1 as first_row Hfirst. inv_bind Hsheet1 as st Hst.
      injection Hsheet1 as <-.
      destruct st as [count cells]. exists [cells]. split.
      + right. exists (PyBuiltins.dict_keys first_row), count, cells.
        split; [|done].
        destruct results as [| | | |rows|kd fields]; try discriminate.
        * unfold first_row_names. inv_bind Hfirst as first Hfirst0.
          rewrite Hfirst0. simpl. by rewrite Hfirst.
        * by injection Hfirst as <-.
      + simpl. by rewrite Hbanner.
    - injection Hsheet1 as <-. exists []. split.
      + left. split; [|done]. rewrite Hn. f_equal. lia.
      + by rewrite app_nil_r. }
  exists view, results, header_title, header_style, column_titles,
    column_header_style, body_style, header_rows.
  split; [done|]. split; [by unfold results_of; rewrite Hin|].
  split; [done|]. split; [done|].
  destruct results as [| | | |rows|[|] fields]; simpl in Hself |- *;
    try (injection Hself as <-; split; [constructor|];
         simpl; rewrite Hrows, ?app_nil_r; done).
  - apply make_bodies_inv in Hself as (Hall & _ & Hbody). simpl in Hbody.
    split; [done|]. by rewrite Hbody, Hrows, <- app_assoc.
  - apply make_body_inv in Hself as [_ ->]. simpl.
    split; [by repeat constructor|]. by rewrite Hrows, <- app_assoc.
Qed.

(** For singular results the column names are the keys of the record itself,
    and a body row is made for a [ReturnDict] only. *)
Lemma singular_rows data renderer_context sheet kind fields :
  results_of data = Ok (VDict kind fields) ->
  XLSXRenderer.render data renderer_context = Ok (WorkbookBytes sheet) ->
  exists banner header_rows body_style,
    length banner <= 1
    /\ ((fields = [] /\ header_rows = [])
        \/ (exists column_titles style count cells,
              XLSXRenderer.column_header_loop column_titles style
                (PyBuiltins.dict_keys fields) (0, []) = Ok (count, cells)
              /\ header_rows = [cells]))
    /\ ws_rows sheet
       = banner ++ header_rows
         ++ match kind with
            | ReturnDict => [body_row body_style (VDict kind fields)]
            | PlainDict => []
            end.
Proof.
  intros Hresults Hrender.
  apply render_workbook_inv in Hrender
    as (view & results & header_title & header_style & column_titles
        & column_header_style & body_style & header_rows
        & _ & Hresults' & _ & Hheader & _ & Hrows).
  rewrite Hresults in Hresults'. injection Hresults' as <-.
  exists (banner_rows (get_attribute view "xlsx_header" XLSXRenderer.empty_dict)
            header_title header_style), header_rows, body_style.
  split; [unfold banner_rows; destruct (PyBuiltins.truthy _); simpl; lia|].
  split.
  - destruct Hheader as [[Hlen ->]|(names & count & cells & Hnames & Hloop & ->)].
    + left. split; [|done]. destruct fields; [done|discriminate Hlen].
    + right. injection Hnames as <-. by exists column_titles, column_header_style, count, cells.
  - rewrite Hrows. by destruct kind.
Qed.

Lemma has_key_In (key : string) (items : list (string * value)) :
  PyBuiltins.has_key key items = true <-> In key (PyBuiltins.dict_keys items).
Proof.
  unfold PyBuiltins.has_key. rewrite existsb_exists. split.
  - intros (k & Hk & E). apply String.eqb_eq in E. by subst.
  - intros Hk. exists key. split; [done|]. apply String.eqb_refl.
Qed.

Lemma shown_names_keys (items : list (string * value)) :
  shown_names (PyBuiltins.dict_keys items) = List.map fst (shown_items items).
Proof.
  unfold shown_names, shown_items, PyBuiltins.dict_keys.
  induction items as [|[k v] items IH]; simpl; [done|].
  destruct (is_shown k); simpl; by rewrite IH.
Qed.

(** ** The input classifier *)

(** C1.  The specification has [render] return the empty byte string for
    the payload [None].  The membership test of [_check_validatation_data]
    runs first and raises [TypeError] on [None], whatever the renderer
    context is: the [data is None] test of [render] is never reached with
    [None]. *)
Theorem render_none_raises (renderer_context : option View) :
  XLSXRenderer._check_validatation_data VNone = Raise TypeError
  /\ XLSXRenderer.render VNone renderer_context = Raise TypeError.
Proof. split; reflexivity. Qed.

(** C2.  For every payload mapping that holds a [detail] key, [render]
    returns the JSON text of the payload: no worksheet is written and
    nothing is raised. *)
Theorem render_detail_payload kind (items : list (string * value))
    (renderer_context : option View) :
  In "detail" (PyBuiltins.dict_keys items) ->
  XLSXRenderer.render (VDict kind items) renderer_context
  = Ok (Text (Json.dumps (VDict kind items))).
Proof.
  intros Hdetail. apply has_key_In in Hdetail.
  unfold XLSXRenderer.render, XLSXRenderer._check_validatation_data.
  cbn [PyBuiltins.contains mbind res_mbind res_bind]. rewrite Hdetail. reflexivity.
Qed.

Lemma render_detail_payload_witness :
  In "detail" (PyBuiltins.dict_keys [("detail", VStr "not found")])
  /\ XLSXRenderer.render (VDict PlainDict [("detail", VStr "not found")]) None
     = Ok (Text (Json.dumps (VDict PlainDict [("detail", VStr "not found")]))).
Proof.
  split; [simpl; auto|].
  apply (render_detail_payload PlainDict [("detail", VStr "not found")] None).
  simpl. auto.
Defined.

(** ** Singular results *)

(** C3.  The specification has one body row for a singular mapping.  The
    body of [render] makes that row only for a [ReturnDict]: for the built-in
    [dict] with one field [a = 1], which the column-header branch accepts,
    the worksheet holds the column-header row and no body row, while the
    same fields in a [ReturnDict] give the header row and one body row. *)
Theorem plain_dict_has_no_body_row :
  rendered_values
    (XLSXRenderer.render (VDict PlainDict [("a", VInt 1)]) (Some no_view))
  = Some [[VStr "a"]]
  /\ rendered_values
       (XLSXRenderer.render (VDict ReturnDict [("a", VInt 1)]) (Some no_view))
     = Some [[VStr "a"]; [VInt 1]].
Proof. split; vm_compute; reflexivity. Qed.

(** C4.  The specification has the columns of a single record be its
    flattened keys.  [render] takes the keys of the record itself: for the
    [ReturnDict] with the field [a = {b: 1, c: 2}] the column-header row
    reads [a] over a body row of two cells, although the record flattens to
    the keys [a.b] and [a.c], which the list branch does show for the same
    record as first row. *)
Theorem singular_header_is_not_flattened :
  XLSXRenderer._flatten (VDict ReturnDict nested_record) "" "." ", "
  = Ok [("a.b", VInt 1); ("a.c", VInt 2)]
  /\ rendered_values
       (XLSXRenderer.render (VDict ReturnDict nested_record) (Some no_view))
     = Some [[VStr "a"]; [VInt 1; VInt 2]]
  /\ rendered_values
       (XLSXRenderer.render (VList [VDict ReturnDict nested_record]) (Some no_view))
     = Some [[VStr "a.b"; VStr "a.c"]; [VInt 1; VInt 2]].
Proof. repeat split; vm_compute; reflexivity. Qed.

(** ** List results *)

(** C5, as stated, fails: the only column discovered from the first record
    is [a], yet the body row of the second record has two cells and shows the
    value of its extra key [b], and the row of the third record shows the
    value of [c] and nothing for the missing [a]. *)
Lemma later_record_keys_are_shown :
  first_row_names uneven_results = Ok ["a"]
  /\ rendered_values (XLSXRenderer.render uneven_results (Some no_view))
     = Some [[VStr "a"]; [VInt 1]; [VInt 2; VInt 3]; [VInt 4]]
  /\ ~ (forall sheet names,
          XLSXRenderer.render uneven_results (Some no_view) = Ok (WorkbookBytes sheet) ->
          first_row_names uneven_results = Ok names ->
          Forall (fun row => length row = length (shown_names names)) (ws_rows sheet)).
Proof.
  split; [reflexivity|]. split; [vm_compute; reflexivity|].
  intros H.
  destruct (XLSXRenderer.render uneven_results (Some no_view)) as [[| |sheet]|] eqn:E;
    try (vm_compute in E; discriminate E).
  specialize (H sheet ["a"] eq_refl eq_refl).
  assert (row_values sheet = [[VStr "a"]; [VInt 1]; [VInt 2; VInt 3]; [VInt 4]]) as Hv.
  { vm_compute in E. injection E as <-. reflexivity. }
  unfold row_values in Hv.
  destruct (ws_rows sheet) as [|r0 [|r1 [|r2 rest]]]; try discriminate Hv.
  apply Forall_cons_1 in H as [_ H]. apply Forall_cons_1 in H as [_ H].
  apply Forall_cons_1 in H as [H _].
  injection Hv as _ _ Hr2 _.
  apply (f_equal length) in Hr2. rewrite length_map in Hr2. simpl in *. lia.
Qed.

(** C5, amended.  For list results, after the optional banner row and the
    column-header row come the body rows, one per record in order.  The
    column-header row has one cell per non-reserved flattened key of the
    first record, and every body row has one cell per non-reserved flattened
    key of its own record, in the order of that record's flattening, holding
    that key's value. *)
Theorem body_rows_follow_own_record data renderer_context sheet rows :
  results_of data = Ok (VList rows) ->
  XLSXRenderer.render data renderer_context = Ok (WorkbookBytes sheet) ->
  exists banner header_rows body_rows,
    ws_rows sheet = banner ++ header_rows ++ body_rows
    /\ length banner <= 1
    /\ match rows with
       | [] => header_rows = []
       | first :: _ =>
           exists cells, header_rows = [cells]
             /\ length cells = length (shown_items (flat first))
       end
    /\ Forall2 (fun record row =>
                  List.map cell_value row = List.map snd (shown_items (flat record)))
         rows body_rows.
Proof.
  intros Hresults Hrender.
  apply render_workbook_inv in Hrender
    as (view & results & header_title & header_style & column_titles
        & column_header_style & body_style & header_rows
        & _ & Hresults' & _ & Hheader & Hdicts & Hrows).
  rewrite Hresults in Hresults'. injection Hresults' as <-. simpl in Hdicts, Hrows.
  eexists _, header_rows, _. split; [exact Hrows|].
  split; [unfold banner_rows; destruct (PyBuiltins.truthy _); simpl; lia|].
  split.
  - destruct rows as [|first rest].
    + destruct Hheader as [[_ ->]|(names & count & cells & Hnames & _)]; [done|].
      discriminate Hnames.
    + destruct Hheader as [[Hlen _]|(names & count & cells & Hnames & Hloop & ->)];
        [discriminate Hlen|].
      exists cells. split; [done|].
      apply column_header_loop_inv in Hloop as (_ & cells' & -> & Hcells).
      apply Forall2_length in Hcells. simpl. rewrite <- Hcells.
      apply Forall_cons_1 in Hdicts as [Hfirst _].
      destruct first as [| | | | |kd fields]; try discriminate Hfirst.
      injection Hnames as <-.
      by rewrite shown_names_keys, length_map.
  - clear Hheader Hrows Hresults.
    induction Hdicts as [|record rest Hrecord _ IH]; simpl.
    + constructor.
    + constructor; [|exact IH].
      destruct record as [| | | | |kd fields]; try discriminate Hrecord.
      unfold body_row, flat. rewrite map_map. reflexivity.
Qed.

Lemma body_rows_follow_own_record_witness :
  exists banner header_rows body_rows,
    ws_rows uneven_sheet = banner ++ header_rows ++ body_rows
    /\ length banner <= 1
    /\ (exists cells, header_rows = [cells]
          /\ length cells = length (shown_items (flat (VDict PlainDict [("a", VInt 1)]))))
    /\ Forall2 (fun record row =>
                  List.map cell_value row = List.map snd (shown_items (flat record)))
         [VDict PlainDict [("a", VInt 1)];
          VDict PlainDict [("a", VInt 2); ("b", VInt 3)];
          VDict PlainDict [("c", VInt 4)]]
         body_rows.
Proof.
  apply (body_rows_follow_own_record uneven_results (Some no_view) uneven_sheet
           [VDict PlainDict [("a", VInt 1)];
            VDict PlainDict [("a", VInt 2); ("b", VInt 3)];
            VDict PlainDict [("c", VInt 4)]]).
  - reflexivity.
  - vm_compute. reflexivity.
Defined.

(** ** The row flattener *)

Lemma flatten_mapping_eq kind fields parent_key key_sep list_sep :
  Flatten.flatten_mapping (VDict kind fields) parent_key key_sep list_sep
  = PyBuiltins.dict_of_items
      (List.flat_map
         (Flatten.flatten_field Flatten.flatten_mapping parent_key key_sep list_sep)
         fields).
Proof. reflexivity. Qed.

Lemma flat_map_step {A B} (f : A -> list B) (x : A) (l : list A) :
  List.flat_map f (x :: l) = f x ++ List.flat_map f l.
Proof. reflexivity. Qed.

(** C7, as stated, fails on a list whose first element is a mapping: a
    mapping is not a sequence, so the claim has the field [m = [{a: 1}]]
    stored as the joined [str] of its elements, the text [{'a': 1}], while
    [_flatten] stores the JSON text of the whole list. *)
Lemma list_of_mappings_is_json :
  claimed_sequence_entry ", " list_of_mappings = VStr "{'a': 1}"
  /\ XLSXRenderer._flatten (VDict PlainDict [("m", VList list_of_mappings)]) "" "." ", "
     = Ok [("m", VStr (Json.dumps (VList list_of_mappings)))]
  /\ XLSXRenderer._flatten (VDict PlainDict [("m", VList list_of_mappings)]) "" "." ", "
     <> Ok [("m", claimed_sequence_entry ", " list_of_mappings)].
Proof.
  split; [vm_compute; reflexivity|]. split; [vm_compute; reflexivity|].
  vm_compute. discriminate.
Qed.

(** ** Column titles *)

Lemma map_imap_value {A} (f : nat -> A -> WriteOnlyCell) (g : nat -> A -> value)
    (l : list A) :
  (forall i x, cell_value (f i x) = g i x) ->
  List.map cell_value (imap f l) = imap g l.
Proof.
  revert f g. induction l as [|x l IH]; intros f g Hfg; [reflexivity|].
  simpl. rewrite Hfg. f_equal. apply IH. intros i y. apply Hfg.
Qed.

(** C8.  For every list of override titles and every sequence of
    discovered column names, the column-header loop makes one cell per name
    other than [row_color]; the cell at position [i] (counted from 0 among
    those names, the claim counts from 1) shows the title at that position
    when the title list reaches it, and the discovered name itself
    otherwise.  With the titles [A] and the columns [id], [name] the header
    row reads [A], [name]. *)
Theorem column_titles_override (titles : list value) (style : NamedStyle)
    (names : list string) :
  (exists cells,
     XLSXRenderer.column_header_loop (VList titles) style names (0, [])
     = Ok (length (List.filter (fun name => negb (String.eqb name "row_color")) names),
           cells)
     /\ List.map cell_value cells
        = imap (fun i name => match titles !! i with
                              | Some title => title
                              | None => VStr name
                              end)
            (List.filter (fun name => negb (String.eqb name "row_color")) names))
  /\ rendered_values (XLSXRenderer.render two_column_results (Some titled_view))
     = Some [[VStr "A"; VStr "name"]; [VInt 1; VStr "x"]].
Proof.
  split; [|vm_compute; reflexivity].
  exists (header_cells titles style 0 names). split.
  - rewrite column_header_loop_list. reflexivity.
  - unfold header_cells. apply map_imap_value. reflexivity.
Qed.

(** ** The configuration resolver *)

(** C9, as stated, fails: on a view whose [xlsx_header] attribute is the
    empty mapping and which has no [get_xlsx_header] accessor,
    [get_attribute] returns that empty mapping itself, not the default. *)
Lemma falsy_attribute_without_accessor_is_returned :
  get_attribute view_with_empty_header "xlsx_header" (VInt 7) = VDict PlainDict []
  /\ ~ (forall (get_from : View) (prop_name : string) (default v : value),
          view_attrs get_from !! prop_name = Some v ->
          PyBuiltins.truthy v = false ->
          v <> VNone ->
          get_attribute get_from prop_name default <> v).
Proof.
  split; [vm_compute; reflexivity|].
  intros H.
  apply (H view_with_empty_header "xlsx_header" (VInt 7) (VDict PlainDict [])).
  - vm_compute. reflexivity.
  - reflexivity.
  - discriminate.
  - vm_compute. reflexivity.
Qed.

(** C9, amended.  When the named attribute is bound to a falsy value,
    [get_attribute] calls the [get_<name>] accessor if the object has one
    and returns its result in place of the attribute, or the default when
    that result is [None]; when the object has no such accessor it returns
    the falsy attribute value itself, and the default only when that value
    is [None]. *)
Theorem get_attribute_falsy (get_from : View) (prop_name : string)
    (default v : value) :
  view_attrs get_from !! prop_name = Some v ->
  PyBuiltins.truthy v = false ->
  get_attribute get_from prop_name default
  = match view_methods get_from !! ("get_" +:+ prop_name) with
    | Some result => if is_none result then default else result
    | None => if is_none v then default else v
    end.
Proof.
  intros Hattr Hfalsy. unfold get_attribute, getattr_data.
  rewrite Hattr. simpl. rewrite Hfalsy. simpl.
  destruct (view_methods get_from !! ("get_" +:+ prop_name)); reflexivity.
Qed.

Lemma get_attribute_falsy_witness :
  get_attribute view_with_accessor "xlsx_body" (VDict PlainDict [])
  = match view_methods view_with_accessor !! ("get_" +:+ "xlsx_body") with
    | Some result => if is_none result then VDict PlainDict [] else result
    | None => if is_none (VInt 0) then VDict PlainDict [] else VInt 0
    end.
Proof.
  apply (get_attribute_falsy view_with_accessor "xlsx_body" (VDict PlainDict []) (VInt 0)).
  - vm_compute. reflexivity.
  - reflexivity.
Defined.

Example get_attribute_accessor_result :
  get_attribute view_with_accessor "xlsx_body" (VDict PlainDict [])
  = VDict PlainDict [("style", VDict PlainDict [])].
Proof. vm_compute. reflexivity. Qed.

(** ** Empty nested mappings *)

Lemma flatten_empty_mapping_field kind kind' before after k parent_key key_sep list_sep :
  Flatten.flatten_mapping (VDict kind (before ++ (k, VDict kind' []) :: after))
    parent_key key_sep list_sep
  = Flatten.flatten_mapping (VDict kind (before ++ after)) parent_key key_sep list_sep.
Proof.
  rewrite !flatten_mapping_eq, !flat_map_app, flat_map_step. reflexivity.
Qed.

(** C10.  A field whose value is an empty mapping adds nothing to what
    [_flatten] returns, so it gets no cell in a body row and, for list
    results, no column.  For a singular [ReturnDict] the column-header row
    is made from the keys of the record itself: the record with the fields
    [a = {}] and [b = 1] gets the header cells [a] and [b] over a body row
    that holds the one cell of [b]. *)
Theorem empty_mapping_keeps_singular_column :
  (forall kind kind' before after k parent_key key_sep list_sep,
      XLSXRenderer._flatten (VDict kind (before ++ (k, VDict kind' []) :: after))
        parent_key key_sep list_sep
      = XLSXRenderer._flatten (VDict kind (before ++ after)) parent_key key_sep list_sep)
  /\ XLSXRenderer._flatten (VDict PlainDict [("a", VDict PlainDict [])]) "" "." ", "
     = Ok []
  /\ rendered_values
       (XLSXRenderer.render (VList [VDict ReturnDict record_with_empty_mapping])
          (Some no_view))
     = Some [[VStr "b"]; [VInt 1]]
  /\ rendered_values
       (XLSXRenderer.render (VDict ReturnDict record_with_empty_mapping) (Some no_view))
     = Some [[VStr "a"; VStr "b"]; [VInt 1]].
Proof.
  split; [|repeat split; vm_compute; reflexivity].
  intros. unfold XLSXRenderer._flatten, Flatten._flatten.
  cbn [PyBuiltins.items_of mbind res_mbind res_bind].
  by rewrite flatten_empty_mapping_field.
Qed.

(** ** Further properties listed by the specification *)

Example flatten_nested :
  XLSXRenderer._flatten
    (VDict PlainDict [("a", VDict PlainDict [("b", VDict PlainDict [("c", VInt 1)])])])
    "" "." ", "
  = Ok [("a.b.c", VInt 1)].
Proof. vm_compute. reflexivity. Qed.

Example empty_results_have_no_column_row :
  rendered_values (XLSXRenderer.render (VList []) (Some no_view)) = Some [].
Proof. vm_compute. reflexivity. Qed.

Example repr_example :
  PyBuiltins.repr (VDict PlainDict [("a", VList [VInt 1; VStr "x'y"; VNone])])
  = "{'a': [1, " +:+ String PyBuiltins.dquote "x'y"
    +:+ String PyBuiltins.dquote ", None]}".
Proof. vm_compute. reflexivity. Qed.

Example dumps_example :
  Json.dumps (VList [VList [VInt 1; VInt 2]; VList [VInt 3; VInt (-4)]])
  = "[[1, 2], [3, -4]]".
Proof. vm_compute. reflexivity. Qed.

(** * Further properties of the module *)

(** ** [get_style_from_dict] *)

Lemma lookup_absent (key : string) (items : list (string * value)) :
  ~ In key (PyBuiltins.dict_keys items) -> PyBuiltins.dict_lookup key items = None.
Proof.
  intros Hkey. apply has_key_false_lookup.
  destruct (PyBuiltins.has_key key items) eqn:E; [|done].
  by apply has_key_In in E.
Qed.

Lemma style_loop_lookup (items : list (string * value)) (st st' : NamedStyle) :
  NoDup (PyBuiltins.dict_keys items) ->
  style_loop items st = Ok st' ->
  st' = mkNamedStyle (style_name st)
      (match PyBuiltins.dict_lookup "font" items with
       | Some v => Some v | None => style_font st end)
      (match PyBuiltins.dict_lookup "fill" items with
       | Some v => Some v | None => style_fill st end)
      (match PyBuiltins.dict_lookup "alignment" items with
       | Some v => Some v | None => style_alignment st end)
      (match PyBuiltins.dict_lookup "border_side" items with
       | Some v => Some v | None => style_border_side st end).
Proof.
  revert st. induction items as [|[k v] items IH]; intros st Hnodup Hloop.
  - injection Hloop as <-. by destruct st.
  - apply NoDup_cons in Hnodup as [Hk Hnodup].
    rewrite list_elem_of_In in Hk.
    cbn [style_loop] in Hloop. inv_bind Hloop as st1 Hset.
    rewrite (IH _ Hnodup Hloop). clear IH Hloop.
    cbn [PyBuiltins.dict_lookup]. unfold style_set, keyword_arguments in Hset.
    destruct (String.eqb_spec k "font") as [->|Hfont].
    { rewrite (lookup_absent "font" items Hk).
      destruct (PyBuiltins.is_mutable_mapping v); [|discriminate].
      injection Hset as <-. reflexivity. }
    destruct (String.eqb_spec k "fill") as [->|Hfill].
    { rewrite (lookup_absent "fill" items Hk).
      destruct (PyBuiltins.is_mutable_mapping v); [|discriminate].
      injection Hset as <-. reflexivity. }
    destruct (String.eqb_spec k "alignment") as [->|Halign].
    { rewrite (lookup_absent "alignment" items Hk).
      destruct (PyBuiltins.is_mutable_mapping v); [|discriminate].
      injection Hset as <-. reflexivity. }
    destruct (String.eqb_spec k "border_side") as [->|Hborder].
    { rewrite (lookup_absent "border_side" items Hk).
      destruct (PyBuiltins.is_mutable_mapping v); [|discriminate].
      injection Hset as <-. reflexivity. }
    injection Hset as <-.
    destruct (String.eqb_spec "font" k); [congruence|].
    destruct (String.eqb_spec "fill" k); [congruence|].
    destruct (String.eqb_spec "alignment" k); [congruence|].
    destruct (String.eqb_spec "border_side" k); [congruence|].
    reflexivity.
Qed.

Lemma style_loop_mappings (items : list (string * value)) (st st' : NamedStyle) :
  style_loop items st = Ok st' ->
  Forall (fun kv => In (fst kv) style_keys -> PyBuiltins.is_mutable_mapping (snd kv) = true)
    items.
Proof.
  revert st. induction items as [|[k v] items IH]; intros st Hloop; [constructor|].
  cbn [style_loop] in Hloop. inv_bind Hloop as st1 Hset.
  constructor; [|by apply (IH st1)].
  cbn [fst snd]. unfold style_keys. intros Hk.
  unfold style_set, keyword_arguments in Hset.
  destruct (PyBuiltins.is_mutable_mapping v); [reflexivity|].
  destruct Hk as [<-|[<-|[<-|[<-|[]]]]]; discriminate Hset.
Qed.

(** X1.  When [get_style_from_dict] returns a style for a style mapping,
    it is the style of the given name whose font, fill, alignment and
    border side are made from the values of the keys [font], [fill],
    [alignment] and [border_side] of the mapping, each left unset when its
    key is missing, and every other key of the mapping is ignored; and the
    value under each of the four keys is a mapping, since it is unpacked
    into keyword arguments. *)
Theorem get_style_from_dict_lookup kind (items : list (string * value)) (name : string)
    (style : NamedStyle) :
  NoDup (PyBuiltins.dict_keys items) ->
  get_style_from_dict (VDict kind items) name = Ok style ->
  style = style_of_items name items
  /\ Forall (fun kv => In (fst kv) style_keys
                       -> PyBuiltins.is_mutable_mapping (snd kv) = true) items.
Proof.
  intros Hnodup Hstyle. unfold get_style_from_dict in Hstyle.
  destruct items as [|item items].
  - injection Hstyle as <-. split; [reflexivity|constructor].
  - cbn [PyBuiltins.truthy negb PyBuiltins.items_of mbind res_mbind res_bind] in Hstyle.
    split; [|by apply style_loop_mappings in Hstyle].
    apply (style_loop_lookup _ _ _ Hnodup) in Hstyle. rewrite Hstyle.
    unfold style_of_items.
    cbn [style_name style_font style_fill style_alignment style_border_side].
    by repeat destruct (PyBuiltins.dict_lookup _ _).
Qed.

Lemma get_style_from_dict_lookup_witness :
  sample_style = style_of_items "body_style" sample_style_items
  /\ Forall (fun kv => In (fst kv) style_keys
                       -> PyBuiltins.is_mutable_mapping (snd kv) = true)
       sample_style_items.
Proof.
  apply (get_style_from_dict_lookup PlainDict sample_style_items "body_style"
           sample_style).
  - vm_compute. repeat constructor; rewrite list_elem_of_In; simpl; intuition discriminate.
  - vm_compute. reflexivity.
Defined.

Example get_style_from_dict_font_not_a_mapping :
  get_style_from_dict (VDict PlainDict [("font", VStr "Arial")]) "header_style"
  = Raise TypeError.
Proof. reflexivity. Qed.

(** X2.  A style option that is truthy but not a mapping (a non-empty
    string or list, a non-zero number, [True]) makes [get_style_from_dict]
    raise [AttributeError]: it has no [items]. *)
Theorem get_style_from_dict_not_a_mapping (style_dict : value) (name : string) :
  PyBuiltins.truthy style_dict = true ->
  PyBuiltins.is_mutable_mapping style_dict = false ->
  get_style_from_dict style_dict name = Raise AttributeError.
Proof.
  intros Htruthy Hmapping. unfold get_style_from_dict. rewrite Htruthy.
  destruct style_dict; try discriminate Hmapping; reflexivity.
Qed.

Lemma get_style_from_dict_not_a_mapping_witness :
  get_style_from_dict (VStr "bold") "header_style" = Raise AttributeError.
Proof.
  apply (get_style_from_dict_not_a_mapping (VStr "bold") "header_style"); reflexivity.
Defined.

(** ** [get_attribute] *)

(** X3.  A truthy attribute is returned as it is: the [get_<name>] accessor
    is not consulted and the default is not used. *)
Theorem get_attribute_truthy (get_from : View) (prop_name : string)
    (default v : value) :
  view_attrs get_from !! prop_name = Some v ->
  PyBuiltins.truthy v = true ->
  get_attribute get_from prop_name default = v.
Proof.
  intros Hattr Htruthy. unfold get_attribute, getattr_data.
  rewrite Hattr. simpl. rewrite Htruthy. simpl.
  by destruct v.
Qed.

Lemma get_attribute_truthy_witness :
  get_attribute view_with_both "xlsx_body" (VDict PlainDict [])
  = VDict PlainDict [("style", VNone)].
Proof.
  apply (get_attribute_truthy view_with_both "xlsx_body" (VDict PlainDict [])
           (VDict PlainDict [("style", VNone)])).
  - vm_compute. reflexivity.
  - reflexivity.
Defined.

(** X4.  When the object has no attribute of the name, [get_attribute]
    returns what the [get_<name>] accessor returns, or the default when
    there is no accessor or the accessor returns [None]. *)
Theorem get_attribute_missing (get_from : View) (prop_name : string)
    (default : value) :
  view_attrs get_from !! prop_name = None ->
  get_attribute get_from prop_name default
  = match view_methods get_from !! ("get_" +:+ prop_name) with
    | Some result => if is_none result then default else result
    | None => default
    end.
Proof.
  intros Hattr. unfold get_attribute, getattr_data. rewrite Hattr. simpl.
  by destruct (view_methods get_from !! ("get_" +:+ prop_name)).
Qed.

Lemma get_attribute_missing_witness :
  get_attribute view_with_accessor_only "xlsx_header" (VDict PlainDict [])
  = match view_methods view_with_accessor_only !! ("get_" +:+ "xlsx_header") with
    | Some result => if is_none result then VDict PlainDict [] else result
    | None => VDict PlainDict []
    end.
Proof.
  apply (get_attribute_missing view_with_accessor_only "xlsx_header" (VDict PlainDict [])).
  vm_compute. reflexivity.
Defined.

(** X5.  [get_attribute] never returns [None] when the default is not
    [None], whatever the object holds. *)
Theorem get_attribute_never_none (get_from : View) (prop_name : string)
    (default : value) :
  default <> VNone ->
  get_attribute get_from prop_name default <> VNone.
Proof.
  intros Hdefault. unfold get_attribute.
  destruct (if negb (PyBuiltins.truthy (getattr_data get_from prop_name))
            then match view_methods get_from !! ("get_" +:+ prop_name) with
                 | Some result => result
                 | None => getattr_data get_from prop_name
                 end
            else getattr_data get_from prop_name); simpl; congruence.
Qed.

Lemma get_attribute_never_none_witness :
  get_attribute no_view "xlsx_header" (VDict PlainDict []) <> VNone.
Proof.
  apply (get_attribute_never_none no_view "xlsx_header" (VDict PlainDict [])).
  discriminate.
Defined.

(** ** [_flatten]: invariants of the flattened row *)

Lemma value_ind_nested (P : value -> Prop) :
  P VNone ->
  (forall b, P (VBool b)) ->
  (forall n, P (VInt n)) ->
  (forall s, P (VStr s)) ->
  (forall xs, Forall P xs -> P (VList xs)) ->
  (forall kind items, Forall (fun kv => P (snd kv)) items -> P (VDict kind items)) ->
  forall v, P v.
Proof.
  intros HNone HBool HInt HStr HList HDict.
  fix IH 1. intros [| b | n | s | xs | kind items].
  - exact HNone.
  - apply HBool.
  - apply HInt.
  - apply HStr.
  - apply HList. induction xs as [|x xs IHxs]; constructor; [apply IH|exact IHxs].
  - apply HDict. induction items as [|[k x] items IHitems]; constructor;
      [apply IH|exact IHitems].
Qed.

Lemma append_assoc (a b c : string) : (a +:+ b) +:+ c = a +:+ b +:+ c.
Proof.
  induction a as [|ch a IH]; [reflexivity|].
  change (String ch ((a +:+ b) +:+ c) = String ch (a +:+ b +:+ c)).
  by rewrite IH.
Qed.

Lemma dict_set_Forall (R : string * value -> Prop) d k v :
  Forall R d -> R (k, v) -> Forall R (PyBuiltins.dict_set d k v).
Proof.
  intros Hd Hkv. induction Hd as [|[k' v'] d Hhead Hd IH]; simpl.
  - by constructor.
  - destruct (String.eqb_spec k k') as [->|Hne]; by constructor.
Qed.

Lemma dict_of_items_Forall (R : string * value -> Prop) items :
  Forall R items -> Forall R (PyBuiltins.dict_of_items items).
Proof.
  unfold PyBuiltins.dict_of_items.
  assert (forall d, Forall R d -> Forall R items ->
                    Forall R (fold_left (fun d kv => PyBuiltins.dict_set d (fst kv) (snd kv))
                                items d)) as Hgen.
  { induction items as [|[k v] items IH]; intros d Hd Hitems; simpl; [done|].
    apply Forall_cons_1 in Hitems as [Hkv Hitems].
    apply IH; [by apply dict_set_Forall|done]. }
  intros Hitems. apply Hgen; [constructor|done].
Qed.

Lemma dict_set_keys d k v :
  PyBuiltins.dict_keys (PyBuiltins.dict_set d k v)
  = if PyBuiltins.has_key k d then PyBuiltins.dict_keys d
    else PyBuiltins.dict_keys d ++ [k].
Proof.
  unfold PyBuiltins.has_key, PyBuiltins.dict_keys.
  induction d as [|[k' v'] d IH]; simpl; [done|].
  destruct (String.eqb k k'); simpl; [done|].
  rewrite IH. by destruct (existsb _ _).
Qed.

Lemma dict_set_NoDup d k v :
  NoDup (PyBuiltins.dict_keys d) -> NoDup (PyBuiltins.dict_keys (PyBuiltins.dict_set d k v)).
Proof.
  intros Hd. rewrite dict_set_keys.
  destruct (PyBuiltins.has_key k d) eqn:E; [done|].
  apply NoDup_app. split; [done|]. split; [|apply NoDup_singleton].
  intros x Hx Hk. apply list_elem_of_singleton in Hk as ->.
  assert (PyBuiltins.has_key k d = true) as E'
    by (apply has_key_In; by rewrite <- list_elem_of_In).
  congruence.
Qed.

Lemma dict_of_items_NoDup items :
  NoDup (PyBuiltins.dict_keys (PyBuiltins.dict_of_items items)).
Proof.
  unfold PyBuiltins.dict_of_items.
  assert (forall d, NoDup (PyBuiltins.dict_keys d) ->
                    NoDup (PyBuiltins.dict_keys
                             (fold_left (fun d kv => PyBuiltins.dict_set d (fst kv) (snd kv))
                                items d))) as Hgen.
  { induction items as [|[k v] items IH]; intros d Hd; simpl; [done|].
    apply IH. by apply dict_set_NoDup. }
  apply Hgen. constructor.
Qed.

Lemma dict_set_fresh d k v :
  ~ In k (PyBuiltins.dict_keys d) -> PyBuiltins.dict_set d k v = d ++ [(k, v)].
Proof.
  induction d as [|[k' v'] d IH]; simpl; intros Hk; [done|].
  destruct (String.eqb_spec k k') as [->|Hne]; [tauto|].
  rewrite IH; [done|tauto].
Qed.

Lemma dict_of_items_distinct items :
  NoDup (PyBuiltins.dict_keys items) -> PyBuiltins.dict_of_items items = items.
Proof.
  unfold PyBuiltins.dict_of_items.
  assert (forall d, NoDup (PyBuiltins.dict_keys (d ++ items)) ->
                    fold_left (fun d kv => PyBuiltins.dict_set d (fst kv) (snd kv)) items d
                    = d ++ items) as Hgen.
  { induction items as [|[k v] items IH]; intros d Hd; simpl.
    - by rewrite app_nil_r.
    - assert (d ++ (k, v) :: items = (d ++ [(k, v)]) ++ items) as Hassoc
        by (by rewrite <- app_assoc).
      rewrite dict_set_fresh.
      + rewrite IH; [by rewrite <- app_assoc|by rewrite <- Hassoc].
      + unfold PyBuiltins.dict_keys in *. rewrite map_app in Hd. simpl in Hd.
        apply NoDup_app in Hd as (_ & Hdisj & _).
        intros Hk. apply (Hdisj k); [by apply list_elem_of_In|by left]. }
  intros Hitems. by apply (Hgen []).
Qed.

Lemma new_key_nonempty parent_key key_sep k :
  parent_key <> "" ->
  Flatten.new_key parent_key key_sep k = parent_key +:+ key_sep +:+ k
  /\ Flatten.new_key parent_key key_sep k <> "".
Proof.
  intros Hparent. unfold Flatten.new_key. simpl.
  destruct (String.eqb_spec parent_key "") as [->|_]; [done|]. simpl.
  split; [done|]. by destruct parent_key.
Qed.

Lemma Forall_flat_map {A B} (R : B -> Prop) (f : A -> list B) (l : list A) :
  (forall x, In x l -> Forall R (f x)) -> Forall R (List.flat_map f l).
Proof.
  induction l as [|x l IH]; intros H; simpl; [constructor|].
  apply Forall_app. split; [apply H; by left|].
  apply IH. intros y Hy. apply H. by right.
Qed.

Lemma flatten_mapping_under_parent data :
  forall parent_key key_sep list_sep,
    parent_key <> "" ->
    Forall (fun kv => under_parent parent_key key_sep (fst kv))
      (Flatten.flatten_mapping data parent_key key_sep list_sep).
Proof.
  induction data as [| | | | |kind fields IH] using value_ind_nested;
    intros parent_key key_sep list_sep Hparent; try constructor.
  rewrite flatten_mapping_eq. apply dict_of_items_Forall.
  apply Forall_flat_map. intros [k x] Hkx.
  rewrite List.Forall_forall in IH. specialize (IH (k, x) Hkx). simpl in IH.
  destruct (new_key_nonempty parent_key key_sep k Hparent) as [Hkey Hnonempty].
  assert (under_parent parent_key key_sep (Flatten.new_key parent_key key_sep k))
    as Hunder by (exists k; exact Hkey).
  unfold Flatten.flatten_field.
  destruct x as [| | | |xs|kind' fields']; simpl;
    try (repeat constructor; exact Hunder).
  - destruct xs as [|first rest]; [repeat constructor; exact Hunder|].
    destruct (PyBuiltins.is_iterable first); repeat constructor; exact Hunder.
  - eapply Forall_impl; [apply (IH _ key_sep ", " Hnonempty)|].
    intros [k' v'] [rest Hrest]. simpl in *. exists (k +:+ key_sep +:+ rest).
    rewrite Hrest, Hkey. by rewrite !append_assoc.
Qed.

(** X6.  When [_flatten] is called with a non-empty parent key, every key
    of the row it returns starts with the parent key followed by the key
    separator, at every depth of nesting. *)
Theorem flatten_keys_under_parent data parent_key key_sep list_sep flat_row :
  parent_key <> "" ->
  XLSXRenderer._flatten data parent_key key_sep list_sep = Ok flat_row ->
  Forall (fun kv => exists rest, fst kv = parent_key +:+ key_sep +:+ rest) flat_row.
Proof.
  intros Hparent Hflat. unfold XLSXRenderer._flatten, Flatten._flatten in Hflat.
  inv_bind Hflat as items Hitems. injection Hflat as <-.
  by apply flatten_mapping_under_parent.
Qed.

Lemma flatten_keys_under_parent_witness :
  Forall (fun kv => exists rest, fst kv = "row" +:+ "/" +:+ rest)
    (Flatten.flatten_mapping deep_record "row" "/" ", ").
Proof.
  apply (flatten_keys_under_parent deep_record "row" "/" ", ").
  - discriminate.
  - reflexivity.
Defined.

Lemma flatten_mapping_scalar data :
  forall parent_key key_sep list_sep,
    Forall (fun kv => is_scalar (snd kv) = true)
      (Flatten.flatten_mapping data parent_key key_sep list_sep).
Proof.
  induction data as [| | | | |kind fields IH] using value_ind_nested;
    intros parent_key key_sep list_sep; try constructor.
  rewrite flatten_mapping_eq. apply dict_of_items_Forall.
  apply Forall_flat_map. intros [k x] Hkx.
  rewrite List.Forall_forall in IH. specialize (IH (k, x) Hkx). simpl in IH.
  unfold Flatten.flatten_field.
  destruct x as [| | | |xs|kind' fields']; simpl;
    [by repeat constructor..| |apply IH].
  destruct xs as [|first rest]; [by repeat constructor|].
  destruct (PyBuiltins.is_iterable first); by repeat constructor.
Qed.

(** X7.  The row that [_flatten] returns is flat: its keys are pairwise
    distinct and none of its values is a mapping or a list, however deeply
    the record is nested. *)
Theorem flatten_row_is_flat data parent_key key_sep list_sep flat_row :
  XLSXRenderer._flatten data parent_key key_sep list_sep = Ok flat_row ->
  NoDup (PyBuiltins.dict_keys flat_row)
  /\ Forall (fun kv => is_scalar (snd kv) = true) flat_row.
Proof.
  intros Hflat. unfold XLSXRenderer._flatten, Flatten._flatten in Hflat.
  inv_bind Hflat as items Hitems. injection Hflat as <-.
  split; [|apply flatten_mapping_scalar].
  destruct data as [| | | | |kind fields]; try discriminate Hitems.
  rewrite flatten_mapping_eq. apply dict_of_items_NoDup.
Qed.

Lemma flatten_row_is_flat_witness :
  NoDup (PyBuiltins.dict_keys (Flatten.flatten_mapping deep_record "" "." ", "))
  /\ Forall (fun kv => is_scalar (snd kv) = true)
       (Flatten.flatten_mapping deep_record "" "." ", ").
Proof.
  apply (flatten_row_is_flat deep_record "" "." ", "). reflexivity.
Defined.

(** X8.  A record whose values are all scalars (no mapping, no list)
    flattens to itself under the empty parent key: same keys, same values,
    same order. *)
Theorem flatten_scalar_record kind (fields : list (string * value)) key_sep list_sep :
  NoDup (PyBuiltins.dict_keys fields) ->
  Forall (fun kv => is_scalar (snd kv) = true) fields ->
  XLSXRenderer._flatten (VDict kind fields) "" key_sep list_sep = Ok fields.
Proof.
  intros Hnodup Hscalar. unfold XLSXRenderer._flatten, Flatten._flatten.
  cbn [PyBuiltins.items_of mbind res_mbind res_bind].
  rewrite flatten_mapping_eq. f_equal.
  assert (List.flat_map (Flatten.flatten_field Flatten.flatten_mapping "" key_sep list_sep)
            fields = fields) as ->.
  { clear Hnodup. induction Hscalar as [|[k x] fields Hx _ IH]; [done|].
    rewrite flat_map_step, IH. simpl in Hx.
    by destruct x. }
  by apply dict_of_items_distinct.
Qed.

Lemma flatten_scalar_record_witness :
  XLSXRenderer._flatten (VDict ReturnDict scalar_fields) "" "." ", " = Ok scalar_fields.
Proof.
  apply (flatten_scalar_record ReturnDict scalar_fields "." ", ").
  - vm_compute. repeat constructor; rewrite list_elem_of_In; simpl; intuition discriminate.
  - repeat constructor.
Defined.

(** X9.  The list separator reaches the list fields of the record itself
    only: the recursive call on a nested mapping does not pass it on, so a
    record without a list at its top level flattens the same under every
    list separator, its nested lists being joined with the default
    comma and space. *)
Theorem flatten_list_sep_top_level_only kind (fields : list (string * value))
    parent_key key_sep list_sep :
  (forall k xs, ~ In (k, VList xs) fields) ->
  XLSXRenderer._flatten (VDict kind fields) parent_key key_sep list_sep
  = XLSXRenderer._flatten (VDict kind fields) parent_key key_sep ", ".
Proof.
  intros Hlists. unfold XLSXRenderer._flatten, Flatten._flatten.
  cbn [PyBuiltins.items_of mbind res_mbind res_bind].
  rewrite !flatten_mapping_eq. do 2 f_equal.
  induction fields as [|[k x] fields IH]; [done|].
  rewrite !flat_map_step, IH.
  - f_equal. destruct x as [| | | |xs|kind' fields']; try reflexivity.
    exfalso. apply (Hlists k xs). by left.
  - intros k' xs Hin. apply (Hlists k' xs). by right.
Qed.

Lemma flatten_list_sep_top_level_only_witness :
  XLSXRenderer._flatten (VDict PlainDict listless_fields) "" "." ";"
  = XLSXRenderer._flatten (VDict PlainDict listless_fields) "" "." ", ".
Proof.
  apply (flatten_list_sep_top_level_only PlainDict listless_fields "" "." ";").
  intros k xs Hin. simpl in Hin. intuition discriminate.
Defined.

Example nested_list_ignores_list_sep :
  XLSXRenderer._flatten (VDict PlainDict listless_fields) "" "." ";"
  = Ok [("id", VInt 7); ("owner.tags", VStr "1, 2")].
Proof. vm_compute. reflexivity. Qed.

(** ** [render]: what it returns *)

(** X10.  [render] never returns the empty byte string: the payload
    [None], for which it is written, makes the membership test before it
    raise, and every other payload gives the JSON text, a workbook or an
    exception. *)
Theorem render_never_empty_bytes data renderer_context :
  XLSXRenderer.render data renderer_context <> Ok EmptyBytes.
Proof.
  unfold XLSXRenderer.render. intros H.
  inv_bind H as valid Hvalid. destruct valid; simpl in H; [|discriminate].
  destruct (is_none data) eqn:Hnone.
  { destruct data; discriminate. }
  cbv zeta in H.
  repeat (let x := fresh "x" in let Hx := fresh "Hx" in inv_bind H as x Hx).
  discriminate H.
Qed.

(** X11.  [render] returns text exactly when the membership test
    ["detail" in data] holds, and the text is then the JSON encoding of the
    whole payload.  The test is a key test on a mapping, an element test on
    a list and a substring test on a string, so a list that holds the string
    [detail] and a string that contains it are answered as text too. *)
Theorem render_text_iff_detail data renderer_context (text : string) :
  XLSXRenderer.render data renderer_context = Ok (Text text)
  <-> PyBuiltins.contains "detail" data = Ok true /\ text = Json.dumps data.
Proof.
  unfold XLSXRenderer.render, XLSXRenderer._check_validatation_data. split.
  - intros H. inv_bind H as valid Hvalid. inv_bind Hvalid as found Hfound.
    destruct found; injection Hvalid as <-; simpl in H.
    + injection H as <-. done.
    + destruct (is_none data); [discriminate|]. cbv zeta in H.
      repeat (let x := fresh "x" in let Hx := fresh "Hx" in inv_bind H as x Hx).
      discriminate H.
  - intros [Hfound ->]. rewrite Hfound. reflexivity.
Qed.

Example render_list_holding_detail :
  XLSXRenderer.render (VList [VStr "detail"; VStr "summary"]) None
  = Ok (Text (Json.dumps (VList [VStr "detail"; VStr "summary"]))).
Proof. reflexivity. Qed.

(** X12.  A paginated envelope is transparent: for a mapping without a
    [detail] key whose [results] entry is itself a payload holding neither
    [detail] nor [results], [render] of the envelope is [render] of the
    entry, whatever else the envelope holds. *)
Theorem render_envelope kind (items : list (string * value)) (results : value)
    renderer_context :
  PyBuiltins.has_key "detail" items = false ->
  PyBuiltins.dict_lookup "results" items = Some results ->
  PyBuiltins.contains "detail" results = Ok false ->
  PyBuiltins.contains "results" results = Ok false ->
  XLSXRenderer.render (VDict kind items) renderer_context
  = XLSXRenderer.render results renderer_context.
Proof.
  intros Hdetail Hlookup Hdetail' Hresults'.
  assert (PyBuiltins.has_key "results" items = true) as Hkey
    by (apply has_key_lookup; eauto).
  assert (is_none results = false) as Hnone by (by destruct results).
  unfold XLSXRenderer.render, XLSXRenderer._check_validatation_data.
  cbn [PyBuiltins.contains PyBuiltins.getitem is_none].
  rewrite Hdetail, Hkey, Hlookup, Hdetail', Hresults', Hnone.
  reflexivity.
Qed.

Lemma render_envelope_witness :
  XLSXRenderer.render
    (VDict PlainDict [("count", VInt 2); ("results", VList two_records)]) (Some styled_view)
  = XLSXRenderer.render (VList two_records) (Some styled_view).
Proof.
  apply (render_envelope PlainDict
           [("count", VInt 2); ("results", VList two_records)] (VList two_records)
           (Some styled_view)); reflexivity.
Defined.

Lemma render_resolved data view cfg results :
  PyBuiltins.contains "detail" data = Ok false ->
  results_of data = Ok results ->
  resolve_config view = Ok cfg ->
  XLSXRenderer.render data (Some view)
  = write_sheet (cfg_column_titles cfg) (cfg_column_header_style cfg)
      (cfg_body_style cfg) (cfg_body cfg) (sheet_with_rows cfg []) results.
Proof.
  intros Hdetail Hresults Hcfg.
  assert (is_none data = false) as Hnone by (by destruct data).
  unfold results_of in Hresults. inv_bind Hresults as in_data Hin.
  unfold resolve_config in Hcfg. cbv zeta in Hcfg.
  unfold XLSXRenderer.render, XLSXRenderer._check_validatation_data.
  rewrite Hdetail. cbn [mbind res_mbind res_bind negb]. rewrite Hnone. cbv zeta.
  rewrite Hin. cbn [mbind res_mbind res_bind]. rewrite Hresults.
  cbn [mbind res_mbind res_bind XLSXRenderer.context_view].
  set (header := get_attribute view "xlsx_header" XLSXRenderer.empty_dict) in *.
  set (column_header := get_attribute view "xlsx_column_header" XLSXRenderer.empty_dict) in *.
  set (body := get_attribute view "xlsx_body" XLSXRenderer.empty_dict) in *.
  inv_bind Hcfg as hsd Hhsd. inv_bind Hcfg as header_style Hhs.
  inv_bind Hcfg as chsd Hchsd. inv_bind Hcfg as column_header_style Hchs.
  inv_bind Hcfg as bsd Hbsd. inv_bind Hcfg as body_style Hbs.
  inv_bind Hcfg as img_addr Himg. inv_bind Hcfg as tab_title Htab.
  inv_bind Hcfg as header_title Htitle. inv_bind Hcfg as column_titles Htitles.
  injection Hcfg as <-.
  rewrite Hhsd. cbn [mbind res_mbind res_bind]. rewrite Hhs.
  cbn [mbind res_mbind res_bind]. rewrite Hchsd.
  cbn [mbind res_mbind res_bind]. rewrite Hchs.
  cbn [mbind res_mbind res_bind]. rewrite Hbsd.
  cbn [mbind res_mbind res_bind]. rewrite Hbs.
  cbn [mbind res_mbind res_bind]. rewrite Himg.
  cbn [mbind res_mbind res_bind]. rewrite Htab.
  cbn [mbind res_mbind res_bind]. rewrite Htitle.
  cbn [mbind res_mbind res_bind]. rewrite Htitles.
  cbn [mbind res_mbind res_bind].
  cbn [cfg_column_titles cfg_column_header_style cfg_body_style cfg_body].
  match goal with
  | |- context [ws_append [?c] ?s] =>
      assert ((if PyBuiltins.truthy header then ws_append [c] s else s)
              = sheet_with_rows
                  (mkConfig header header_style column_header_style body body_style
                     img_addr tab_title header_title column_titles) []) as Hsheet
  end.
  { unfold sheet_with_rows, banner_rows. simpl.
    destruct (PyBuiltins.truthy header), (PyBuiltins.truthy img_addr); reflexivity. }
  unfold write_sheet. rewrite <- Hsheet. reflexivity.
Qed.

Lemma contains_list_false (key : string) (rows : list value) :
  ~ In (VStr key) rows -> PyBuiltins.contains key (VList rows) = Ok false.
Proof.
  intros Hkey. simpl. f_equal. apply not_true_is_false. intros H.
  apply existsb_exists in H as (x & Hx & E).
  destruct x; try discriminate E. apply String.eqb_eq in E. by subst.
Qed.

Lemma mappings_hold_no_string (key : string) (rows : list value) :
  Forall (fun r => PyBuiltins.is_mutable_mapping r = true) rows -> ~ In (VStr key) rows.
Proof.
  intros Hrows Hin. rewrite List.Forall_forall in Hrows.
  by specialize (Hrows _ Hin).
Qed.

Lemma make_bodies_forward rows (self : Renderer) :
  Forall (fun r => PyBuiltins.is_mutable_mapping r = true) rows ->
  XLSXRenderer.make_bodies rows self
  = Ok (mkRenderer
          (mkWorksheet (ws_title (ws self)) (ws_images (ws self))
             (ws_rows (ws self) ++ List.map (body_row (body_style self)) rows))
          (body self) (body_style self)).
Proof.
  intros Hrows. revert self. induction Hrows as [|row rows Hrow _ IH]; intros self.
  - simpl. rewrite app_nil_r. by destruct self as [[] ? ?].
  - destruct row as [| | | | |kind fields]; try discriminate Hrow.
    cbn [XLSXRenderer.make_bodies]. rewrite make_body_dict.
    cbn [mbind res_mbind res_bind]. rewrite IH. simpl.
    by rewrite <- app_assoc.
Qed.

(** The next two lemmas compute the worksheet of the embedding, in which
    the calls into the spreadsheet library are total: it is the worksheet
    that [render] returns whenever the library accepts the titles, the
    image, the colours and the cell values. *)
Lemma list_of_records_rendered (view : View) (cfg : Config) (titles : list value)
    (rows : list value) :
  resolve_config view = Ok cfg ->
  cfg_column_titles cfg = VList titles ->
  Forall (fun r => PyBuiltins.is_mutable_mapping r = true) rows ->
  XLSXRenderer.render (VList rows) (Some view)
  = Ok (WorkbookBytes
          {| ws_title := cfg_tab_title cfg;
             ws_images := if PyBuiltins.truthy (cfg_img_addr cfg)
                          then [(cfg_img_addr cfg, "A1")] else [];
             ws_rows :=
               (if PyBuiltins.truthy (cfg_header cfg)
                then [[mkCell (cfg_header_title cfg) (cfg_header_style cfg) None]]
                else [])
               ++ match rows with
                  | [] => []
                  | first :: _ =>
                      [header_cells titles (cfg_column_header_style cfg) 0
                         (PyBuiltins.dict_keys (flat first))]
                  end
               ++ List.map (body_row (cfg_body_style cfg)) rows |}).
Proof.
  intros Hcfg Htitles Hrows.
  rewrite (render_resolved (VList rows) view cfg (VList rows)); [| |  |done].
  - unfold write_sheet. rewrite Htitles.
    destruct rows as [|first rest].
    + reflexivity.
    + pose proof Hrows as Hall. apply Forall_cons_1 in Hrows as [Hfirst _].
      destruct first as [| | | | |kind fields]; try discriminate Hfirst.
      cbn [PyBuiltins.len length Nat.ltb Nat.leb XLSXRenderer.index lookup list_lookup
           mbind res_mbind res_bind].
      unfold XLSXRenderer._flatten, Flatten._flatten.
      cbn [PyBuiltins.items_of mbind res_mbind res_bind].
      rewrite column_header_loop_list.
      cbn [mbind res_mbind res_bind snd].
      rewrite make_bodies_forward by done.
      unfold sheet_with_rows, banner_rows, flat.
      simpl. by rewrite app_nil_r, <- app_assoc.
  - apply contains_list_false. by apply mappings_hold_no_string.
  - unfold results_of. rewrite contains_list_false; [done|].
    by apply mappings_hold_no_string.
Qed.

Lemma singular_mapping_rendered (view : View) (cfg : Config) (titles : list value)
    kind (fields : list (string * value)) :
  resolve_config view = Ok cfg ->
  cfg_column_titles cfg = VList titles ->
  PyBuiltins.has_key "detail" fields = false ->
  PyBuiltins.has_key "results" fields = false ->
  XLSXRenderer.render (VDict kind fields) (Some view)
  = Ok (WorkbookBytes
          {| ws_title := cfg_tab_title cfg;
             ws_images := if PyBuiltins.truthy (cfg_img_addr cfg)
                          then [(cfg_img_addr cfg, "A1")] else [];
             ws_rows :=
               (if PyBuiltins.truthy (cfg_header cfg)
                then [[mkCell (cfg_header_title cfg) (cfg_header_style cfg) None]]
                else [])
               ++ match fields with
                  | [] => []
                  | _ :: _ =>
                      [header_cells titles (cfg_column_header_style cfg) 0
                         (PyBuiltins.dict_keys fields)]
                  end
               ++ match kind with
                  | ReturnDict => [body_row (cfg_body_style cfg) (VDict kind fields)]
                  | PlainDict => []
                  end |}).
Proof.
  intros Hcfg Htitles Hdetail Hresults.
  rewrite (render_resolved (VDict kind fields) view cfg (VDict kind fields));
    [| |  |done].
  - unfold write_sheet. rewrite Htitles.
    destruct fields as [|field fields].
    + destruct kind; [reflexivity|].
      cbn [PyBuiltins.len length Nat.ltb Nat.leb mbind res_mbind res_bind].
      rewrite make_body_dict. unfold sheet_with_rows, banner_rows. simpl.
      by rewrite app_nil_r.
    + cbn [PyBuiltins.len length Nat.ltb Nat.leb mbind res_mbind res_bind].
      rewrite column_header_loop_list.
      cbn [mbind res_mbind res_bind snd].
      destruct kind.
      * unfold sheet_with_rows, banner_rows, ws_append. simpl.
        by rewrite ?app_nil_r, <- ?app_assoc.
      * rewrite make_body_dict.
        unfold sheet_with_rows, banner_rows, self_append, ws_append. simpl.
        by rewrite ?app_nil_r, <- ?app_assoc.
  - simpl. by rewrite Hdetail.
  - unfold results_of. simpl. by rewrite Hresults.
Qed.

Example render_empty_return_dict :
  rendered_values (XLSXRenderer.render (VDict ReturnDict []) (Some no_view)) = Some [[]].
Proof. vm_compute. reflexivity. Qed.

(** ** The column titles *)

(** X16.  Column titles that have no length ([None], a number, a
    boolean) make the column-header loop raise [TypeError] as soon as there
    is a column to show; with no column to show the loop does not look at
    them and succeeds with an empty row. *)
Theorem column_titles_without_length titles style (names : list string) :
  PyBuiltins.len titles = Raise TypeError ->
  XLSXRenderer.column_header_loop titles style names (0, [])
  = match shown_names names with
    | [] => Ok (0, [])
    | _ :: _ => Raise TypeError
    end.
Proof.
  intros Hlen. generalize (0, @nil WriteOnlyCell) as st.
  induction names as [|name names IH]; intros [count row]; [reflexivity|].
  cbn [XLSXRenderer.column_header_loop shown_names List.filter].
  unfold XLSXRenderer.column_header_step, is_shown.
  destruct (String.eqb name reserved_key); cbn [negb mbind res_mbind res_bind].
  - apply IH.
  - rewrite Hlen. reflexivity.
Qed.

Lemma column_titles_without_length_witness :
  XLSXRenderer.column_header_loop VNone (mkNamedStyle "column_header_style" None None None None)
    ["row_color"; "id"] (0, [])
  = match shown_names ["row_color"; "id"] with
    | [] => Ok (0, [])
    | _ :: _ => Raise TypeError
    end.
Proof.
  apply (column_titles_without_length VNone
           (mkNamedStyle "column_header_style" None None None None) ["row_color"; "id"]).
  reflexivity.
Defined.

(** ** [_flatten]: colliding keys *)

(** X19.  A field whose own name is a dotted path and a later nested field
    that flattens to the same path share one entry of the row: the entry
    stands where the first one was and holds the value of the later one, so
    the first value is lost. *)
Theorem flatten_colliding_keys kind kind' (a b : string) (x y : value) :
  a <> "" ->
  is_scalar x = true ->
  is_scalar y = true ->
  XLSXRenderer._flatten
    (VDict kind [(a +:+ "." +:+ b, x); (a, VDict kind' [(b, y)])]) "" "." ", "
  = Ok [(a +:+ "." +:+ b, y)].
Proof.
  intros Ha Hx Hy.
  destruct (new_key_nonempty a "." b Ha) as [Hkey _].
  unfold XLSXRenderer._flatten, Flatten._flatten.
  cbn [PyBuiltins.items_of mbind res_mbind res_bind]. f_equal.
  rewrite flatten_mapping_eq, !flat_map_step.
  assert (Flatten.flatten_field Flatten.flatten_mapping "" "." ", " (a +:+ "." +:+ b, x)
          = [(a +:+ "." +:+ b, x)]) as -> by (by destruct x).
  assert (Flatten.flatten_field Flatten.flatten_mapping "" "." ", " (a, VDict kind' [(b, y)])
          = [(a +:+ "." +:+ b, y)]) as ->.
  { unfold Flatten.flatten_field.
    cbn [PyBuiltins.is_mutable_mapping Flatten.new_key PyBuiltins.truthy String.eqb negb].
    rewrite flatten_mapping_eq, flat_map_step.
    assert (Flatten.flatten_field Flatten.flatten_mapping a "." ", " (b, y)
            = [(a +:+ "." +:+ b, y)]) as ->
        by (unfold Flatten.flatten_field; rewrite Hkey; by destruct y).
    reflexivity. }
  unfold PyBuiltins.dict_of_items. simpl. by rewrite String.eqb_refl.
Qed.

Lemma flatten_colliding_keys_witness :
  XLSXRenderer._flatten
    (VDict PlainDict [("owner" +:+ "." +:+ "name", VStr "ann");
                      ("owner", VDict PlainDict [("name", VStr "bob")])]) "" "." ", "
  = Ok [("owner" +:+ "." +:+ "name", VStr "bob")].
Proof.
  apply (flatten_colliding_keys PlainDict PlainDict "owner" "name" (VStr "ann") (VStr "bob"));
    [discriminate|reflexivity|reflexivity].
Defined.

(** * The worksheet that [render] returns

    The lemmas of this part read a returned workbook back into the
    configuration resolved from the view and the results taken from the
    payload. *)

Lemma check_validation_passed data :
  XLSXRenderer._check_validatation_data data = Ok true ->
  PyBuiltins.contains "detail" data = Ok false.
Proof.
  unfold XLSXRenderer._check_validatation_data. intros H.
  inv_bind H as found Hfound. by destruct found.
Qed.

Lemma render_workbook_resolved data renderer_context sheet :
  XLSXRenderer.render data renderer_context = Ok (WorkbookBytes sheet) ->
  exists view cfg results,
    renderer_context = Some view
    /\ PyBuiltins.contains "detail" data = Ok false
    /\ results_of data = Ok results
    /\ resolve_config view = Ok cfg
    /\ write_sheet (cfg_column_titles cfg) (cfg_column_header_style cfg)
         (cfg_body_style cfg) (cfg_body cfg) (sheet_with_rows cfg []) results
       = Ok (WorkbookBytes sheet).
Proof.
  intros Hrender. pose proof Hrender as H. unfold XLSXRenderer.render in H.
  inv_bind H as valid Hvalid. destruct valid; simpl in H; [|discriminate].
  apply check_validation_passed in Hvalid.
  destruct (is_none data); [discriminate|]. cbv zeta in H.
  inv_bind H as in_data Hin. inv_bind H as results Hresults.
  inv_bind H as view Hview.
  destruct renderer_context as [view'|]; [|discriminate]. injection Hview as ->.
  inv_bind H as hsd Hhsd. inv_bind H as header_style Hhs.
  inv_bind H as chsd Hchsd. inv_bind H as column_header_style Hchs.
  inv_bind H as bsd Hbsd. inv_bind H as body_style Hbs.
  inv_bind H as img_addr Himg. inv_bind H as tab_title Htab.
  inv_bind H as header_title Htitle. inv_bind H as column_titles Htitles.
  clear H.
  assert (results_of data = Ok results) as Hres.
  { unfold results_of. rewrite Hin. exact Hresults. }
  assert (resolve_config view
          = Ok (mkConfig (get_attribute view "xlsx_header" XLSXRenderer.empty_dict)
                  header_style column_header_style
                  (get_attribute view "xlsx_body" XLSXRenderer.empty_dict)
                  body_style img_addr tab_title header_title column_titles)) as Hcfg.
  { unfold resolve_config. cbv zeta.
    rewrite Hhsd. cbn [mbind res_mbind res_bind]. rewrite Hhs.
    cbn [mbind res_mbind res_bind]. rewrite Hchsd.
    cbn [mbind res_mbind res_bind]. rewrite Hchs.
    cbn [mbind res_mbind res_bind]. rewrite Hbsd.
    cbn [mbind res_mbind res_bind]. rewrite Hbs.
    cbn [mbind res_mbind res_bind]. rewrite Himg.
    cbn [mbind res_mbind res_bind]. rewrite Htab.
    cbn [mbind res_mbind res_bind]. rewrite Htitle.
    cbn [mbind res_mbind res_bind]. rewrite Htitles.
    reflexivity. }
  eexists view, _, results.
  split; [done|]. split; [done|]. split; [done|]. split; [exact Hcfg|].
  rewrite <- (render_resolved data view _ results Hvalid Hres Hcfg). exact Hrender.
Qed.

Lemma write_sheet_inv column_titles column_header_style body_style body sheet0
    results sheet :
  write_sheet column_titles column_header_style body_style body sheet0 results
  = Ok (WorkbookBytes sheet) ->
  exists header_rows,
    ((PyBuiltins.len results = Ok 0 /\ header_rows = [])
     \/ (exists n names count cells,
           PyBuiltins.len results = Ok (S n)
           /\ first_row_names results = Ok names
           /\ XLSXRenderer.column_header_loop column_titles column_header_style
                names (0, []) = Ok (count, cells)
           /\ header_rows = [cells]))
    /\ Forall (fun r => PyBuiltins.is_mutable_mapping r = true) (body_records results)
    /\ sheet = mkWorksheet (ws_title sheet0) (ws_images sheet0)
                 (ws_rows sheet0 ++ header_rows
                  ++ List.map (body_row body_style) (body_records results)).
Proof.
  unfold write_sheet. intros H.
  inv_bind H as n Hn. inv_bind H as sheet1 Hsheet1. inv_bind H as self Hself.
  injection H as <-.
  assert (exists header_rows,
             ((PyBuiltins.len results = Ok 0 /\ header_rows = [])
              \/ (exists n names count cells,
                    PyBuiltins.len results = Ok (S n)
                    /\ first_row_names results = Ok names
                    /\ XLSXRenderer.column_header_loop column_titles
                         column_header_style names (0, []) = Ok (count, cells)
                    /\ header_rows = [cells]))
             /\ sheet1 = mkWorksheet (ws_title sheet0) (ws_images sheet0)
                           (ws_rows sheet0 ++ header_rows))
    as (header_rows & Hheader & ->).
  { destruct n as [|n].
    - injection Hsheet1 as <-. exists []. split; [by left|].
      rewrite app_nil_r. by destruct sheet0.
    - cbn [Nat.ltb Nat.leb] in Hsheet1.
      inv_bind Hsheet1 as first_row Hfirst. inv_bind Hsheet1 as st Hst.
      injection Hsheet1 as <-.
      destruct st as [count cells]. exists [cells]. split; [|reflexivity].
      right. exists n, (PyBuiltins.dict_keys first_row), count, cells.
      split; [done|]. split; [|done].
      destruct results as [| | | |rows|kd fields]; try discriminate.
      + unfold first_row_names. inv_bind Hfirst as first Hfirst0.
        rewrite Hfirst0. cbn [mbind res_mbind res_bind]. by rewrite Hfirst.
      + by injection Hfirst as <-. }
  exists header_rows. split; [done|].
  destruct results as [| | | |rows|[|] fields]; cbn [body_records];
    try (injection Hself as <-; split; [constructor|];
         cbn [ws List.map]; by rewrite ?app_nil_r).
  - pose proof Hself as Hall. apply make_bodies_inv in Hall as (Hall & _).
    rewrite (make_bodies_forward _ _ Hall) in Hself. injection Hself as <-.
    split; [done|]. simpl. by rewrite <- app_assoc.
  - rewrite make_body_dict in Hself. injection Hself as <-.
    split; [by repeat constructor|].
    unfold self_append, ws_append. simpl. by rewrite <- app_assoc.
Qed.

(** The header cells by position: the cell of the [i]-th shown name was made
    when [column_count] stood at [count + i]. *)
Lemma column_header_loop_positions titles style names count row count' row' :
  XLSXRenderer.column_header_loop titles style names (count, row) = Ok (count', row') ->
  exists cells,
    row' = row ++ cells
    /\ length cells = length (shown_names names)
    /\ forall i name cell,
         shown_names names !! i = Some name -> cells !! i = Some cell ->
         header_cell_at titles style (count + i) name cell.
Proof.
  revert count row. induction names as [|name names IH]; intros count row.
  - intros [= <- <-]. exists []. rewrite app_nil_r.
    split; [done|]. split; [done|]. intros i name cell H. discriminate H.
  - cbn [XLSXRenderer.column_header_loop]. unfold XLSXRenderer.column_header_step.
    assert (shown_names (name :: names)
            = if is_shown name then name :: shown_names names else shown_names names)
      as -> by reflexivity.
    unfold is_shown.
    destruct (String.eqb_spec name reserved_key) as [->|Hname]; cbn [negb].
    + cbn [mbind res_mbind res_bind]. apply IH.
    + intros H. inv_bind H as st Hst. inv_bind Hst as n Hn.
      inv_bind Hst as shown Hshown. injection Hst as <-.
      apply IH in H as (cells & -> & Hlen & Hcells).
      exists (mkCell shown style None :: cells).
      split; [by rewrite <- app_assoc|]. split; [by cbn [length]; rewrite Hlen|].
      intros [|i] name' cell Hname' Hcell.
      * injection Hname' as <-. injection Hcell as <-.
        split; [done|]. split; [done|]. split; [done|].
        exists n. split; [done|]. rewrite Nat.add_0_r. cbn [cell_value].
        destruct (Nat.ltb_spec n (S count)), (Nat.ltb_spec count n); try lia.
        -- by injection Hshown as <-.
        -- replace (S count - 1) with count in Hshown by lia. done.
      * replace (count + S i) with (S count + i) by lia.
        by apply Hcells.
Qed.

(** ** The reserved key *)

Lemma Forall2_map_r_in {A B} (P : A -> B -> Prop) (g : A -> B) (l : list A) :
  (forall x, In x l -> P x (g x)) -> Forall2 P l (List.map g l).
Proof.
  induction l as [|x l IH]; intros H; simpl; constructor.
  - apply H. by left.
  - apply IH. intros y Hy. apply H. by right.
Qed.

Lemma is_shown_ne (name : string) : is_shown name = true -> name <> "row_color".
Proof.
  unfold is_shown, reserved_key. intros H ->. by rewrite String.eqb_refl in H.
Qed.

(** C6.  Every worksheet that [render] returns is made of three groups of
    rows, each fixed by the configuration [cfg] that [render] reads from the
    view and by the results of the payload.  First the banner row of the
    header section, if that section is truthy.  Then the column-header row,
    written exactly when the results are not empty: it has one cell per
    name of the first row other than [row_color], in their order, and the
    cell at position [i] shows the [i]-th column title of the configuration
    when the titles reach that far and the name itself otherwise, so
    [row_color] gets no column.  Then one row per body record: its cells
    are, in order, the values of the entries of the record's flattened row
    whose key is not [row_color], and each cell carries the solid fill of
    the record's own [row_color] exactly when the record has that key, and
    no fill otherwise. *)
Theorem row_color_is_never_shown data renderer_context sheet :
  XLSXRenderer.render data renderer_context = Ok (WorkbookBytes sheet) ->
  exists view cfg results header_rows body_rows,
    renderer_context = Some view
    /\ resolve_config view = Ok cfg
    /\ results_of data = Ok results
    /\ ws_rows sheet
       = (if PyBuiltins.truthy (cfg_header cfg)
          then [[mkCell (cfg_header_title cfg) (cfg_header_style cfg) None]]
          else [])
         ++ header_rows ++ body_rows
    /\ ((PyBuiltins.len results = Ok 0 /\ header_rows = [])
        \/ (exists n names cells,
              PyBuiltins.len results = Ok (S n)
              /\ first_row_names results = Ok names
              /\ header_rows = [cells]
              /\ length cells
                 = length (List.filter (fun name => negb (String.eqb name "row_color"))
                             names)
              /\ forall i name cell,
                   List.filter (fun name => negb (String.eqb name "row_color")) names
                     !! i = Some name ->
                   cells !! i = Some cell ->
                   header_cell_at (cfg_column_titles cfg) (cfg_column_header_style cfg)
                     i name cell))
    /\ Forall2 (fun record row =>
                  exists kind fields, record = VDict kind fields
                    /\ Forall2 (body_cell_of (cfg_body_style cfg) fields)
                         (List.filter (fun kv => negb (String.eqb (fst kv) "row_color"))
                            (flat record))
                         row)
         (body_records results) body_rows.
Proof.
  intros Hrender.
  apply render_workbook_resolved in Hrender
    as (view & cfg & results & -> & _ & Hresults & Hcfg & Hwrite).
  apply write_sheet_inv in Hwrite as (header_rows & Hheader & Hall & ->).
  exists view, cfg, results, header_rows,
    (List.map (body_row (cfg_body_style cfg)) (body_records results)).
  split; [done|]. split; [done|]. split; [done|].
  split; [unfold sheet_with_rows, banner_rows; cbn [ws_rows]; by rewrite app_nil_r|].
  split.
  - destruct Hheader as [?|(n & names & count & cells & Hlen & Hnames & Hloop & ->)];
      [by left|].
    right. exists n, names, cells.
    apply column_header_loop_positions in Hloop as (cells' & -> & Hcount & Hcells).
    split; [done|]. split; [done|]. split; [done|]. split; [exact Hcount|].
    exact Hcells.
  - apply Forall2_map_r_in. intros record Hrecord.
    rewrite List.Forall_forall in Hall. specialize (Hall _ Hrecord).
    destruct record as [| | | | |kind fields]; try discriminate Hall.
    exists kind, fields. split; [done|].
    unfold body_row, flat.
    change (shown_items (Flatten.flatten_mapping (VDict kind fields) "" "." ", "))
      with (List.filter (fun kv => negb (String.eqb (fst kv) "row_color"))
              (Flatten.flatten_mapping (VDict kind fields) "" "." ", ")).
    apply Forall2_map_r_in. intros [k v] Hkv.
    apply filter_In in Hkv as [_ Hkv].
    split; [by apply is_shown_ne|]. by repeat split.
Qed.

Lemma row_color_is_never_shown_witness :
  exists view cfg results header_rows body_rows,
    Some titled_view = Some view
    /\ resolve_config view = Ok cfg
    /\ results_of colored_data = Ok results
    /\ ws_rows colored_sheet
       = (if PyBuiltins.truthy (cfg_header cfg)
          then [[mkCell (cfg_header_title cfg) (cfg_header_style cfg) None]]
          else [])
         ++ header_rows ++ body_rows
    /\ ((PyBuiltins.len results = Ok 0 /\ header_rows = [])
        \/ (exists n names cells,
              PyBuiltins.len results = Ok (S n)
              /\ first_row_names results = Ok names
              /\ header_rows = [cells]
              /\ length cells
                 = length (List.filter (fun name => negb (String.eqb name "row_color"))
                             names)
              /\ forall i name cell,
                   List.filter (fun name => negb (String.eqb name "row_color")) names
                     !! i = Some name ->
                   cells !! i = Some cell ->
                   header_cell_at (cfg_column_titles cfg) (cfg_column_header_style cfg)
                     i name cell))
    /\ Forall2 (fun record row =>
                  exists kind fields, record = VDict kind fields
                    /\ Forall2 (body_cell_of (cfg_body_style cfg) fields)
                         (List.filter (fun kv => negb (String.eqb (fst kv) "row_color"))
                            (flat record))
                         row)
         (body_records results) body_rows.
Proof.
  apply (row_color_is_never_shown colored_data (Some titled_view) colored_sheet).
  vm_compute. reflexivity.
Defined.

Example colored_sheet_rows :
  ws_rows colored_sheet
  = [[mkCell (VStr "A") (mkNamedStyle "column_header_style" None None None None) None;
      mkCell (VStr "name") (mkNamedStyle "column_header_style" None None None None) None];
     [mkCell (VInt 1) (mkNamedStyle "body_style" None None None None)
        (Some (mkPatternFill "solid" (VStr "FFFF0000")));
      mkCell (VStr "x") (mkNamedStyle "body_style" None None None None)
        (Some (mkPatternFill "solid" (VStr "FFFF0000")))]].
Proof. reflexivity. Qed.

(** ** List fields in the flattened row *)

Lemma dict_set_lookup_same d k v :
  PyBuiltins.dict_lookup k (PyBuiltins.dict_set d k v) = Some v.
Proof.
  induction d as [|[k' v'] d IH]; simpl.
  - by rewrite String.eqb_refl.
  - destruct (String.eqb k k') eqn:E; simpl; by rewrite E.
Qed.

Lemma dict_set_lookup_other d k k' v :
  k <> k' ->
  PyBuiltins.dict_lookup k (PyBuiltins.dict_set d k' v) = PyBuiltins.dict_lookup k d.
Proof.
  intros Hne. induction d as [|[k1 v1] d IH]; simpl.
  - by destruct (String.eqb_spec k k').
  - destruct (String.eqb_spec k' k1) as [->|Hk1]; simpl.
    + by destruct (String.eqb_spec k k1).
    + by rewrite IH.
Qed.

Lemma fold_dict_set_lookup (items d : list (string * value)) (k : string) :
  ~ In k (PyBuiltins.dict_keys items) ->
  PyBuiltins.dict_lookup k
    (fold_left (fun d kv => PyBuiltins.dict_set d (fst kv) (snd kv)) items d)
  = PyBuiltins.dict_lookup k d.
Proof.
  revert d. induction items as [|[k' v'] items IH]; intros d Hk; simpl; [done|].
  simpl in Hk. rewrite IH by tauto. apply dict_set_lookup_other. intros ->. tauto.
Qed.

Lemma fold_dict_set_keys (items d : list (string * value)) (k : string) :
  In k (PyBuiltins.dict_keys d) \/ In k (PyBuiltins.dict_keys items) ->
  In k (PyBuiltins.dict_keys
          (fold_left (fun d kv => PyBuiltins.dict_set d (fst kv) (snd kv)) items d)).
Proof.
  revert d. induction items as [|[k' v'] items IH]; intros d Hk; simpl.
  - destruct Hk as [Hk|[]]. exact Hk.
  - apply IH. rewrite dict_set_keys. simpl in Hk.
    destruct (PyBuiltins.has_key k' d) eqn:E.
    + destruct Hk as [Hk|[<-|Hk]]; [by left| |by right].
      left. by apply has_key_In.
    + rewrite in_app_iff. simpl. tauto.
Qed.

Lemma entries_under_absent (k : string) (d : list (string * value)) :
  ~ In k (PyBuiltins.dict_keys d) -> entries_under k d = [].
Proof.
  induction d as [|[k' v'] d IH]; simpl; intros Hk; [done|].
  destruct (String.eqb_spec k' k) as [->|Hne]; [tauto|]. apply IH. tauto.
Qed.

Lemma entries_under_lookup (k : string) (v : value) (d : list (string * value)) :
  NoDup (PyBuiltins.dict_keys d) ->
  PyBuiltins.dict_lookup k d = Some v ->
  entries_under k d = [(k, v)].
Proof.
  induction d as [|[k' v'] d IH]; simpl; intros Hnodup Hlookup; [discriminate|].
  apply NoDup_cons in Hnodup as [Hk' Hnodup]. rewrite list_elem_of_In in Hk'.
  rewrite String.eqb_sym.
  destruct (String.eqb_spec k k') as [->|Hne].
  - injection Hlookup as ->. by rewrite entries_under_absent.
  - by apply IH.
Qed.

Lemma flatten_list_field (k : string) (xs : list value) parent_key key_sep list_sep :
  starts_with_str xs = false ->
  Flatten.flatten_field Flatten.flatten_mapping parent_key key_sep list_sep (k, VList xs)
  = [(Flatten.new_key parent_key key_sep k, sequence_entry list_sep xs)].
Proof.
  intros Hxs. unfold Flatten.flatten_field, sequence_entry. simpl.
  destruct xs as [|first rest]; [reflexivity|].
  by destruct first.
Qed.

(** C7, amended.  Take a record field whose value is a list that does not
    start with a string, and suppose no later field of the record flattens
    to the field's key.  Then the row returned by [_flatten] holds exactly
    one entry under that key: the JSON text of the whole list when the list
    is non-empty and its first element is itself a list or a mapping, and
    the [list_sep]-joined [str] of the elements otherwise, which is the
    empty string for the empty list.  A record of that one field flattens
    to that one entry, so [{tags: [1, 2, 3]}] flattens to
    [{tags: "1, 2, 3"}] and [{m: [[1, 2], [3, 4]]}] to
    [{m: "[[1, 2], [3, 4]]"}]. *)
Theorem sequence_field_entry kind before after k (xs : list value)
    parent_key key_sep list_sep :
  starts_with_str xs = false ->
  ~ In (Flatten.new_key parent_key key_sep k)
       (PyBuiltins.dict_keys
          (Flatten.flatten_mapping (VDict kind after) parent_key key_sep list_sep)) ->
  (exists flat_row,
      XLSXRenderer._flatten (VDict kind (before ++ (k, VList xs) :: after))
        parent_key key_sep list_sep
      = Ok flat_row
      /\ entries_under (Flatten.new_key parent_key key_sep k) flat_row
         = [(Flatten.new_key parent_key key_sep k, sequence_entry list_sep xs)])
  /\ XLSXRenderer._flatten (VDict kind [(k, VList xs)]) parent_key key_sep list_sep
     = Ok [(Flatten.new_key parent_key key_sep k, sequence_entry list_sep xs)]
  /\ XLSXRenderer._flatten
       (VDict PlainDict [("tags", VList [VInt 1; VInt 2; VInt 3])]) "" "." ", "
     = Ok [("tags", VStr "1, 2, 3")]
  /\ XLSXRenderer._flatten
       (VDict PlainDict [("m", VList [VList [VInt 1; VInt 2]; VList [VInt 3; VInt 4]])])
       "" "." ", "
     = Ok [("m", VStr "[[1, 2], [3, 4]]")].
Proof.
  intros Hxs Hlater.
  pose proof (flatten_list_field k xs parent_key key_sep list_sep Hxs) as Hfield.
  split; [|split; [|split; vm_compute; reflexivity]].
  - eexists. split.
    + unfold XLSXRenderer._flatten, Flatten._flatten.
      cbn [PyBuiltins.items_of mbind res_mbind res_bind]. reflexivity.
    + apply entries_under_lookup.
      * rewrite flatten_mapping_eq. apply dict_of_items_NoDup.
      * rewrite flatten_mapping_eq, flat_map_app, flat_map_step, Hfield.
        unfold PyBuiltins.dict_of_items. rewrite fold_left_app.
        cbn [app fold_left fst snd].
        rewrite fold_dict_set_lookup; [apply dict_set_lookup_same|].
        intros Hin. apply Hlater. rewrite flatten_mapping_eq.
        apply fold_dict_set_keys. by right.
  - unfold XLSXRenderer._flatten, Flatten._flatten.
    cbn [PyBuiltins.items_of mbind res_mbind res_bind].
    rewrite flatten_mapping_eq, flat_map_step, Hfield. reflexivity.
Qed.

Lemma sequence_field_entry_witness :
  (exists flat_row,
      XLSXRenderer._flatten
        (VDict PlainDict
           (tagged_fields_before ++ ("tags", VList [VNone; VInt 2]) :: tagged_fields_after))
        "" "." ", "
      = Ok flat_row
      /\ entries_under (Flatten.new_key "" "." "tags") flat_row
         = [(Flatten.new_key "" "." "tags", sequence_entry ", " [VNone; VInt 2])])
  /\ XLSXRenderer._flatten (VDict PlainDict [("tags", VList [VNone; VInt 2])]) "" "." ", "
     = Ok [(Flatten.new_key "" "." "tags", sequence_entry ", " [VNone; VInt 2])]
  /\ XLSXRenderer._flatten
       (VDict PlainDict [("tags", VList [VInt 1; VInt 2; VInt 3])]) "" "." ", "
     = Ok [("tags", VStr "1, 2, 3")]
  /\ XLSXRenderer._flatten
       (VDict PlainDict [("m", VList [VList [VInt 1; VInt 2]; VList [VInt 3; VInt 4]])])
       "" "." ", "
     = Ok [("m", VStr "[[1, 2], [3, 4]]")].
Proof.
  apply (sequence_field_entry PlainDict tagged_fields_before tagged_fields_after
           "tags" [VNone; VInt 2] "" "." ", ").
  - reflexivity.
  - vm_compute. intros [H|[]]. discriminate H.
Defined.

Example tagged_record_flattened :
  XLSXRenderer._flatten
    (VDict PlainDict
       (tagged_fields_before ++ ("tags", VList [VNone; VInt 2]) :: tagged_fields_after))
    "" "." ", "
  = Ok [("id", VInt 7); ("tags", VStr "None, 2"); ("owner.tags", VStr "[[1], [2]]")].
Proof. vm_compute. reflexivity. Qed.

(** ** [render]: list results and singular results *)

Lemma results_of_list (rows : list value) (results : value) :
  results_of (VList rows) = Ok results -> results = VList rows.
Proof.
  unfold results_of. cbn [PyBuiltins.contains mbind res_mbind res_bind].
  destruct (existsb _ rows); [discriminate|]. by intros [= <-].
Qed.

Lemma list_of_records_sheet (view : View) (cfg : Config) (titles : list value)
    (rows : list value) (sheet : Worksheet) :
  resolve_config view = Ok cfg ->
  cfg_column_titles cfg = VList titles ->
  XLSXRenderer.render (VList rows) (Some view) = Ok (WorkbookBytes sheet) ->
  Forall (fun r => PyBuiltins.is_mutable_mapping r = true) rows
  /\ sheet
     = {| ws_title := cfg_tab_title cfg;
          ws_images := if PyBuiltins.truthy (cfg_img_addr cfg)
                       then [(cfg_img_addr cfg, "A1")] else [];
          ws_rows :=
            (if PyBuiltins.truthy (cfg_header cfg)
             then [[mkCell (cfg_header_title cfg) (cfg_header_style cfg) None]]
             else [])
            ++ match rows with
               | [] => []
               | first :: _ =>
                   [header_cells titles (cfg_column_header_style cfg) 0
                      (PyBuiltins.dict_keys (flat first))]
               end
            ++ List.map (body_row (cfg_body_style cfg)) rows |}.
Proof.
  intros Hcfg Htitles Hrender.
  assert (Forall (fun r => PyBuiltins.is_mutable_mapping r = true) rows) as Hrows.
  { pose proof Hrender as H. apply render_workbook_inv in H
      as (view' & results & ? & ? & ? & ? & ? & ? & _ & Hresults & _ & _ & Hall & _).
    apply results_of_list in Hresults as ->. exact Hall. }
  split; [done|].
  rewrite (list_of_records_rendered view cfg titles rows Hcfg Htitles Hrows) in Hrender.
  by injection Hrender as <-.
Qed.

(** X13.  Suppose the configuration of the view resolves to [cfg] with a
    list of column titles, and [render] returns a workbook for a list
    payload.  Then every row of the list is a mapping, and the worksheet is
    this one: the configured tab title, the image at [A1] when one is
    configured, and as rows the banner row (when the header section is
    truthy), the column-header row made from the flattened keys of the first
    record (when there is a record) and one body row per record, in the
    order of the list.  For the empty list there is no column-header
    row. *)
Theorem render_list_of_records (view : View) (cfg : Config) (titles : list value)
    (rows : list value) (sheet : Worksheet) :
  resolve_config view = Ok cfg ->
  cfg_column_titles cfg = VList titles ->
  XLSXRenderer.render (VList rows) (Some view) = Ok (WorkbookBytes sheet) ->
  Forall (fun r => PyBuiltins.is_mutable_mapping r = true) rows
  /\ sheet
     = {| ws_title := cfg_tab_title cfg;
          ws_images := if PyBuiltins.truthy (cfg_img_addr cfg)
                       then [(cfg_img_addr cfg, "A1")] else [];
          ws_rows :=
            (if PyBuiltins.truthy (cfg_header cfg)
             then [[mkCell (cfg_header_title cfg) (cfg_header_style cfg) None]]
             else [])
            ++ match rows with
               | [] => []
               | first :: _ =>
                   [header_cells titles (cfg_column_header_style cfg) 0
                      (PyBuiltins.dict_keys (flat first))]
               end
            ++ List.map (body_row (cfg_body_style cfg)) rows |}.
Proof. exact (list_of_records_sheet view cfg titles rows sheet). Qed.

Lemma render_list_of_records_witness :
  Forall (fun r => PyBuiltins.is_mutable_mapping r = true) two_records
  /\ plain_list_sheet
     = {| ws_title := cfg_tab_title plain_config;
          ws_images := if PyBuiltins.truthy (cfg_img_addr plain_config)
                       then [(cfg_img_addr plain_config, "A1")] else [];
          ws_rows :=
            (if PyBuiltins.truthy (cfg_header plain_config)
             then [[mkCell (cfg_header_title plain_config)
                      (cfg_header_style plain_config) None]]
             else [])
            ++ [header_cells [VStr "No."] (cfg_column_header_style plain_config) 0
                  (PyBuiltins.dict_keys (flat deep_record))]
            ++ List.map (body_row (cfg_body_style plain_config)) two_records |}.
Proof.
  apply (render_list_of_records plain_view plain_config [VStr "No."] two_records
           plain_list_sheet).
  - vm_compute. reflexivity.
  - reflexivity.
  - vm_compute. reflexivity.
Defined.

Example plain_list_sheet_values :
  ws_title plain_list_sheet = VStr "Sales"
  /\ ws_images plain_list_sheet = []
  /\ row_values plain_list_sheet
     = [[VStr "Report"];
        [VStr "No."; VStr "owner.name"; VStr "owner.tags"; VStr "sizes"];
        [VInt 7; VStr "ann"; VStr "1, 2"; VStr "3, 4"];
        [VInt 8]].
Proof. vm_compute. done. Qed.



(** X15.  Suppose the configuration of the view resolves to [cfg] with a
    list of column titles, and [render] returns a workbook for a singular
    mapping without a [results] key.  Then the mapping has no [detail] key,
    and the worksheet is this one: tab title, image and banner row as
    configured, then the column-header row made from the mapping's own keys
    (when it has any), then the one body row of the mapping for a
    [ReturnDict] only; an empty [ReturnDict] still gets its empty body
    row. *)
Theorem render_singular_mapping (view : View) (cfg : Config) (titles : list value)
    kind (fields : list (string * value)) (sheet : Worksheet) :
  resolve_config view = Ok cfg ->
  cfg_column_titles cfg = VList titles ->
  PyBuiltins.has_key "results" fields = false ->
  XLSXRenderer.render (VDict kind fields) (Some view) = Ok (WorkbookBytes sheet) ->
  PyBuiltins.has_key "detail" fields = false
  /\ sheet
     = {| ws_title := cfg_tab_title cfg;
          ws_images := if PyBuiltins.truthy (cfg_img_addr cfg)
                       then [(cfg_img_addr cfg, "A1")] else [];
          ws_rows :=
            (if PyBuiltins.truthy (cfg_header cfg)
             then [[mkCell (cfg_header_title cfg) (cfg_header_style cfg) None]]
             else [])
            ++ match fields with
               | [] => []
               | _ :: _ =>
                   [header_cells titles (cfg_column_header_style cfg) 0
                      (PyBuiltins.dict_keys fields)]
               end
            ++ match kind with
               | ReturnDict => [body_row (cfg_body_style cfg) (VDict kind fields)]
               | PlainDict => []
               end |}.
Proof.
  intros Hcfg Htitles Hresults Hrender.
  assert (PyBuiltins.has_key "detail" fields = false) as Hdetail.
  { pose proof Hrender as H.
    apply render_workbook_resolved in H as (? & ? & ? & _ & Hdetail & _).
    by injection Hdetail. }
  split; [done|].
  rewrite (singular_mapping_rendered view cfg titles kind fields Hcfg Htitles
             Hdetail Hresults) in Hrender.
  by injection Hrender as <-.
Qed.

Lemma render_singular_mapping_witness :
  PyBuiltins.has_key "detail" scalar_fields = false
  /\ plain_singular_sheet
     = {| ws_title := cfg_tab_title plain_config;
          ws_images := if PyBuiltins.truthy (cfg_img_addr plain_config)
                       then [(cfg_img_addr plain_config, "A1")] else [];
          ws_rows :=
            (if PyBuiltins.truthy (cfg_header plain_config)
             then [[mkCell (cfg_header_title plain_config)
                      (cfg_header_style plain_config) None]]
             else [])
            ++ [header_cells [VStr "No."] (cfg_column_header_style plain_config) 0
                  (PyBuiltins.dict_keys scalar_fields)]
            ++ [body_row (cfg_body_style plain_config) (VDict ReturnDict scalar_fields)] |}.
Proof.
  apply (render_singular_mapping plain_view plain_config [VStr "No."] ReturnDict
           scalar_fields plain_singular_sheet).
  - vm_compute. reflexivity.
  - reflexivity.
  - reflexivity.
  - vm_compute. reflexivity.
Defined.

Example plain_singular_sheet_values :
  row_values plain_singular_sheet
  = [[VStr "Report"];
     [VStr "No."; VStr "name"; VStr "active"];
     [VInt 7; VStr "ann"; VBool true]].
Proof. vm_compute. reflexivity. Qed.

(** ** [render]: the configuration comes first *)

(** X17.  A view whose configuration cannot be read is never rendered to
    a workbook, whatever the payload, an empty list included: when a section
    of the view is not a mapping, or a style option is truthy and not a
    mapping, or a font, fill, alignment or border side is not a mapping,
    [render] raises while it reads the configuration, before it looks at
    the results. *)
Theorem render_configuration_error (view : View) (e : exn) data (sheet : Worksheet) :
  resolve_config view = Raise e ->
  XLSXRenderer.render data (Some view) <> Ok (WorkbookBytes sheet).
Proof.
  intros Hcfg Hrender.
  apply render_workbook_resolved in Hrender
    as (view' & cfg & results & Hview & _ & _ & Hcfg' & _).
  injection Hview as <-. congruence.
Qed.

Lemma render_configuration_error_witness :
  XLSXRenderer.render (VList []) (Some view_with_bad_header)
  <> Ok (WorkbookBytes create_sheet).
Proof.
  apply (render_configuration_error view_with_bad_header AttributeError (VList [])
           create_sheet).
  vm_compute. reflexivity.
Defined.

Lemma get_absent (key : string) (default : value) :
  PyBuiltins.get XLSXRenderer.empty_dict key default = Ok default.
Proof. reflexivity. Qed.

(** X18.  Take a view that has neither an [xlsx_header] attribute nor a
    [get_xlsx_header] accessor, whose configuration resolves to [cfg] with a
    list of column titles.  A workbook that [render] returns for a list
    payload then holds a worksheet named [Report], without image and
    without banner row: its rows are the column-header row (when there is a
    record) and the body rows only. *)
Theorem render_without_header (view : View) (cfg : Config) (titles : list value)
    (rows : list value) (sheet : Worksheet) :
  view_attrs view !! "xlsx_header" = None ->
  view_methods view !! "get_xlsx_header" = None ->
  resolve_config view = Ok cfg ->
  cfg_column_titles cfg = VList titles ->
  XLSXRenderer.render (VList rows) (Some view) = Ok (WorkbookBytes sheet) ->
  sheet
  = {| ws_title := VStr "Report";
       ws_images := [];
       ws_rows :=
         match rows with
         | [] => []
         | first :: _ =>
             [header_cells titles (cfg_column_header_style cfg) 0
                (PyBuiltins.dict_keys (flat first))]
         end
         ++ List.map (body_row (cfg_body_style cfg)) rows |}.
Proof.
  intros Hattr Hmethod Hcfg Htitles Hrender.
  apply (list_of_records_sheet view cfg titles rows sheet Hcfg Htitles) in Hrender
    as [_ ->].
  assert (get_attribute view "xlsx_header" XLSXRenderer.empty_dict
          = XLSXRenderer.empty_dict) as Hheader.
  { unfold get_attribute, getattr_data. rewrite Hattr. simpl.
    change ("get_" +:+ "xlsx_header") with "get_xlsx_header". by rewrite Hmethod. }
  unfold resolve_config in Hcfg. cbv zeta in Hcfg. rewrite Hheader in Hcfg.
  rewrite !get_absent in Hcfg. cbn [mbind res_mbind res_bind] in Hcfg.
  repeat (let x := fresh "x" in let Hx := fresh "Hx" in inv_bind Hcfg as x Hx).
  injection Hcfg as <-. reflexivity.
Qed.

Lemma render_without_header_witness :
  headerless_sheet
  = {| ws_title := VStr "Report";
       ws_images := [];
       ws_rows :=
         [header_cells [VStr "No."] (cfg_column_header_style headerless_config) 0
            (PyBuiltins.dict_keys (flat deep_record))]
         ++ List.map (body_row (cfg_body_style headerless_config)) two_records |}.
Proof.
  apply (render_without_header view_without_header headerless_config [VStr "No."]
           two_records headerless_sheet).
  - vm_compute. reflexivity.
  - vm_compute. reflexivity.
  - vm_compute. reflexivity.
  - reflexivity.
  - vm_compute. reflexivity.
Defined.
